(** * Ingestion scripts of wodwisdom: a shallow embedding

    This development models [scripts/ingest.py], [scripts/batch_ingest.py]
    and [scripts/ingest_kids.py].

    Python strings are modelled as Rocq [string]s, i.e. sequences of 8-bit
    characters read as the Latin-1 code points U+0000..U+00FF (the OCR
    patterns need U+00A9 and U+00AB).  Character predicates ([\s], [\d],
    [\w], [str.isspace]) follow CPython's Unicode tables on that range.

    Library calls whose behaviour lies outside the repository (requests,
    BeautifulSoup, pypdf, Playwright, urllib's [urlparse], [pathlib]) are
    fields of an environment record [Lib]: every theorem quantifies over
    all of their behaviours. *)

From Stdlib Require Import Ascii List Bool Arith ZArith Lia String.
Import ListNotations.
Open Scope string_scope.
Open Scope nat_scope.

(** ** Characters and Python string methods *)

Definition code (c : ascii) : nat := nat_of_ascii c.

(** [str.isspace] / regex [\s] on U+0000..U+00FF. *)
Definition py_isspace (c : ascii) : bool :=
  let n := code c in
  ((9 <=? n) && (n <=? 13)) || ((28 <=? n) && (n <=? 32))
  || (n =? 133) || (n =? 160).

(** regex [\d]: the decimal digits of U+0000..U+00FF are 0-9. *)
Definition is_digit (c : ascii) : bool :=
  let n := code c in (48 <=? n) && (n <=? 57).

(** regex [\w]: [str.isalnum] or underscore, on U+0000..U+00FF. *)
Definition is_word (c : ascii) : bool :=
  let n := code c in
  is_digit c || ((65 <=? n) && (n <=? 90)) || ((97 <=? n) && (n <=? 122))
  || (n =? 95) || (n =? 170) || (n =? 178) || (n =? 179) || (n =? 181)
  || (n =? 185) || (n =? 186) || ((188 <=? n) && (n <=? 190))
  || ((192 <=? n) && (n <=? 214)) || ((216 <=? n) && (n <=? 246))
  || ((248 <=? n) && (n <=? 255)).

Definition nl : ascii := ascii_of_nat 10.

Fixpoint lstrip (s : string) : string :=
  match s with
  | EmptyString => EmptyString
  | String c s' => if py_isspace c then lstrip s' else s
  end.

Fixpoint srev (s : string) : string :=
  match s with
  | EmptyString => EmptyString
  | String c s' => srev s' ++ String c EmptyString
  end.

Definition rstrip (s : string) : string := srev (lstrip (srev s)).

(** [s.strip()] *)
Definition py_strip (s : string) : string := rstrip (lstrip s).

(** [str.lower] on U+0000..U+00FF (U+00D7 is not a letter). *)
Definition lower_char (c : ascii) : ascii :=
  let n := code c in
  if ((65 <=? n) && (n <=? 90)) || ((192 <=? n) && (n <=? 222) && negb (n =? 215))
  then ascii_of_nat (n + 32) else c.

Fixpoint py_lower (s : string) : string :=
  match s with
  | EmptyString => EmptyString
  | String c s' => String (lower_char c) (py_lower s')
  end.

(** [s.endswith(suf)] *)
Definition py_endswith (s suf : string) : bool :=
  (String.length suf <=? String.length s)
  && String.eqb (substring (String.length s - String.length suf) (String.length suf) s) suf.

(** [sub in s] *)
Fixpoint py_in (sub s : string) : bool :=
  String.prefix sub s ||
  match s with
  | EmptyString => false
  | String _ s' => py_in sub s'
  end.

(** Truthiness of a Python string. *)
Definition truthy (s : string) : bool := negb (String.eqb s "").

(** ** [normalize_url] (ingest.py)

    The pattern
    [(https?://pmc\.ncbi\.nlm\.nih\.gov/articles/PMC\d+)/pdf/.+\.pdf]
    is used with [re.match], which anchors at the start only. *)

Fixpoint strip_prefix (p s : string) : option string :=
  match p, s with
  | EmptyString, _ => Some s
  | String a p', String b s' => if Ascii.eqb a b then strip_prefix p' s' else None
  | String _ _, EmptyString => None
  end.

(** [\d+] followed by the literal [/]: the run of digits is maximal. *)
Fixpoint span_digits (s : string) : string * string :=
  match s with
  | EmptyString => (EmptyString, EmptyString)
  | String c s' =>
      if is_digit c then let (d, r) := span_digits s' in (String c d, r)
      else (EmptyString, s)
  end.

(** [.+\.pdf] matches a prefix of [s]: one non-newline character, then
    either [.pdf] or again [.+\.pdf]. *)
Fixpoint dot_plus_pdf (s : string) : bool :=
  match s with
  | EmptyString => false
  | String c r => negb (Ascii.eqb c nl) && (String.prefix ".pdf" r || dot_plus_pdf r)
  end.

Definition pmc_https := "https://pmc.ncbi.nlm.nih.gov/articles/PMC".
Definition pmc_http := "http://pmc.ncbi.nlm.nih.gov/articles/PMC".

(** Group 1 of the match from one spelling of the scheme. *)
Definition pmc_match_from (pfx url : string) : option string :=
  match strip_prefix pfx url with
  | None => None
  | Some r =>
      let (ds, r') := span_digits r in
      if String.eqb ds "" then None
      else match strip_prefix "/pdf/" r' with
           | Some r'' => if dot_plus_pdf r'' then Some (pfx ++ ds) else None
           | None => None
           end
  end.

(** [re.match(...)] and [m.group(1)]; [s?] tries [https] first. *)
Definition pmc_match (url : string) : option string :=
  match pmc_match_from pmc_https url with
  | Some g => Some g
  | None => pmc_match_from pmc_http url
  end.

(** The value returned by [normalize_url] (its print is modelled in the
    effectful version below). *)
Definition normalize_url_value (url : string) : string :=
  match pmc_match url with
  | Some g => g ++ "/"
  | None => url
  end.

(** ** A backtracking regular-expression matcher (Python [re] semantics)

    Enough of [re] for the patterns of [ingest_kids.py]: literals,
    one-character classes, [^] and [$] under [re.MULTILINE], sequence,
    alternation (left branch first) and the greedy quantifiers [?] and [*]
    applied to one character class ([+] and [{n,}] are written out).
    Matching is in continuation-passing style, so backtracking into earlier
    choices happens exactly in Python's priority order.  A position is the
    previous character of the subject (for [^]) and the rest of it. *)

Inductive regex : Type :=
| REps
| RLit (c : ascii)
| RCls (p : ascii -> bool)
| RBol
| REol
| RSeq (r1 r2 : regex)
| RAlt (r1 r2 : regex)
| ROpt (p : ascii -> bool)
| RStar (p : ascii -> bool).

Definition mresult : Type := option (option ascii * list ascii).
Definition mcont : Type := option ascii -> list ascii -> mresult.

Fixpoint mstar (p : ascii -> bool) (prev : option ascii) (s : list ascii)
  (k : mcont) : mresult :=
  match s with
  | [] => k prev s
  | c :: s' =>
      if p c then
        match mstar p (Some c) s' k with
        | Some x => Some x
        | None => k prev s
        end
      else k prev s
  end.

Fixpoint mt (r : regex) (prev : option ascii) (s : list ascii) (k : mcont)
  : mresult :=
  match r with
  | REps => k prev s
  | RLit c =>
      match s with
      | d :: s' => if Ascii.eqb c d then k (Some d) s' else None
      | [] => None
      end
  | RCls p =>
      match s with
      | d :: s' => if p d then k (Some d) s' else None
      | [] => None
      end
  | RBol =>
      match prev with
      | None => k prev s
      | Some c => if Ascii.eqb c nl then k prev s else None
      end
  | REol =>
      match s with
      | [] => k prev s
      | c :: _ => if Ascii.eqb c nl then k prev s else None
      end
  | RSeq r1 r2 => mt r1 prev s (fun pv s' => mt r2 pv s' k)
  | RAlt r1 r2 =>
      match mt r1 prev s k with
      | Some x => Some x
      | None => mt r2 prev s k
      end
  | ROpt p =>
      match s with
      | d :: s' =>
          if p d then
            match k (Some d) s' with
            | Some x => Some x
            | None => k prev s
            end
          else k prev s
      | [] => k prev s
      end
  | RStar p => mstar p prev s k
  end.

Definition kfin : mcont := fun pv s => Some (pv, s).

(** [re.sub(pattern, repl, text)]: scan left to right, replace each
    leftmost match and resume after it.  None of the patterns below can
    match the empty string; an empty match is treated as no match. *)
Fixpoint sub_fuel (fuel : nat) (r : regex) (repl : list ascii)
  (prev : option ascii) (s : list ascii) : list ascii :=
  match fuel with
  | O => s
  | S f =>
      let copy :=
        match s with
        | [] => []
        | c :: s' => c :: sub_fuel f r repl (Some c) s'
        end in
      match mt r prev s kfin with
      | Some (pv, rest) =>
          if List.length rest <? List.length s
          then repl ++ sub_fuel f r repl pv rest
          else copy
      | None => copy
      end
  end%list.

Definition re_sub (r : regex) (repl text : string) : string :=
  let s := list_ascii_of_string text in
  string_of_list_ascii
    (sub_fuel (S (List.length s)) r (list_ascii_of_string repl) None s).

(** Building blocks for writing the patterns. *)
Fixpoint lit (s : string) : regex :=
  match s with
  | EmptyString => REps
  | String c s' => RSeq (RLit c) (lit s')
  end.

Fixpoint rseq (rs : list regex) : regex :=
  match rs with
  | [] => REps
  | [r] => r
  | r :: rs' => RSeq r (rseq rs')
  end.

Fixpoint ralt (rs : list regex) : regex :=
  match rs with
  | [] => RCls (fun _ => false)
  | [r] => r
  | r :: rs' => RAlt r (ralt rs')
  end.

Definition rplus (p : ascii -> bool) : regex := RSeq (RCls p) (RStar p).
Definition is_char (c : ascii) : ascii -> bool := fun d => Ascii.eqb c d.
Definition any_char : ascii -> bool := fun _ => true.
Definition sp := py_isspace.
Definition copyright_sign : ascii := ascii_of_nat 169.
Definition left_guillemet : ascii := ascii_of_nat 171.

(** ** OCR artifact patterns (ingest_kids.py), all with [re.MULTILINE] *)

(** [^(METHODOLOGY|MOVEMENTS|POST-COURSE RESOURCES?)\s+CrossFit Kids
    Training Guide\s*\|\s*CrossFit\s*$] *)
Definition PAGE_HEADER_RE : regex :=
  rseq [RBol;
        ralt [lit "METHODOLOGY"; lit "MOVEMENTS";
              RSeq (lit "POST-COURSE RESOURCE") (ROpt (is_char "S"))];
        rplus sp; lit "CrossFit Kids Training Guide"; RStar sp; lit "|";
        RStar sp; lit "CrossFit"; RStar sp; REol].

(** [^\|?\s*CrossFit\s+CrossFit Kids Training Guide\s*\|\s*\d+\s+of\s+\d+\s*$] *)
Definition PAGE_FOOTER_RE : regex :=
  rseq [RBol; ROpt (is_char "|"); RStar sp; lit "CrossFit"; rplus sp;
        lit "CrossFit Kids Training Guide"; RStar sp; lit "|"; RStar sp;
        rplus is_digit; rplus sp; lit "of"; rplus sp; rplus is_digit;
        RStar sp; REol].

(** [^Copyright © \d{4} CrossFit, LLC\. All Rights Reserved\.\s*$] *)
Definition COPYRIGHT_RE : regex :=
  rseq [RBol; lit "Copyright "; RLit copyright_sign; lit " ";
        RCls is_digit; RCls is_digit; RCls is_digit; RCls is_digit;
        lit " CrossFit, LLC. All Rights Reserved."; RStar sp; REol].

(** [^\d+\.\d+-\d+\w+\s*$] *)
Definition VERSION_RE : regex :=
  rseq [RBol; rplus is_digit; lit "."; rplus is_digit; lit "-";
        rplus is_digit; rplus is_word; RStar sp; REol].

(** [^«?\s*[Cc]ross[Ff]it\s*$] *)
Definition CROSSFIT_LOGO_RE : regex :=
  rseq [RBol; ROpt (is_char left_guillemet); RStar sp;
        RCls (fun c => Ascii.eqb c "C" || Ascii.eqb c "c"); lit "ross";
        RCls (fun c => Ascii.eqb c "F" || Ascii.eqb c "f"); lit "it";
        RStar sp; REol].

(** [^CrossFit Kids Training Guide\s*\|\s*\d+\s+of\s+\d+\s*$] *)
Definition PAGE_NUM_RE : regex :=
  rseq [RBol; lit "CrossFit Kids Training Guide"; RStar sp; lit "|";
        RStar sp; rplus is_digit; rplus sp; lit "of"; rplus sp;
        rplus is_digit; RStar sp; REol].

(** [^(CrossFit Kids Science|CrossFit Kids Nutrition and Lifestyle[^,]*|
    Movements|Protecting CrossFit Kids From Predation|Frequently Asked
    Questions|Equipment List|Class Structure),\s*continued\s*$] *)
Definition CONTINUED_HEADER_RE : regex :=
  rseq [RBol;
        ralt [lit "CrossFit Kids Science";
              RSeq (lit "CrossFit Kids Nutrition and Lifestyle")
                   (RStar (fun c => negb (Ascii.eqb c ",")));
              lit "Movements"; lit "Protecting CrossFit Kids From Predation";
              lit "Frequently Asked Questions"; lit "Equipment List";
              lit "Class Structure"];
        lit ","; RStar sp; lit "continued"; RStar sp; REol].

(** [\n{4,}] *)
Definition BLANK_RUN_RE : regex :=
  rseq [RLit nl; RLit nl; RLit nl; RLit nl; RStar (is_char nl)].

Definition three_newlines : string :=
  String nl (String nl (String nl EmptyString)).

(** [clean_ocr_text] *)
Definition clean_ocr_text (text : string) : string :=
  let text := re_sub PAGE_HEADER_RE "" text in
  let text := re_sub PAGE_FOOTER_RE "" text in
  let text := re_sub COPYRIGHT_RE "" text in
  let text := re_sub VERSION_RE "" text in
  let text := re_sub CROSSFIT_LOGO_RE "" text in
  let text := re_sub PAGE_NUM_RE "" text in
  let text := re_sub CONTINUED_HEADER_RE "" text in
  let text := re_sub BLANK_RUN_RE three_newlines text in
  py_strip text.

(** ** Python exceptions *)

(** Classes of the exceptions the library calls raise.  All of them derive
    from [Exception]; the first four from [requests.RequestException]. *)
Inductive exc_kind : Type :=
| ConnectionError | Timeout | HTTPError | OtherRequestError
| ValueError | OSError | AttributeError | EOFError | PdfReadError
| PlaywrightError.

Definition is_request_kind (k : exc_kind) : bool :=
  match k with
  | ConnectionError | Timeout | HTTPError | OtherRequestError => true
  | _ => false
  end.

(** A raised exception: an [Exception] subclass, or [SystemExit], which
    derives from [BaseException] only. *)
Inductive exc : Type :=
| PyException (k : exc_kind) (msg : string)
| SystemExit (msg : string).

(** [except Exception] *)
Definition is_Exception (e : exc) : bool :=
  match e with PyException _ _ => true | SystemExit _ => false end.

(** [except requests.RequestException] *)
Definition is_RequestException (e : exc) : bool :=
  match e with PyException k _ => is_request_kind k | SystemExit _ => false end.

(** [str(e)] *)
Definition exc_str (e : exc) : string :=
  match e with PyException _ m => m | SystemExit m => m end.

(** Outcome of a library call. *)
Inductive result (A : Type) : Type :=
| Ok (a : A)
| Err (k : exc_kind) (msg : string).
Arguments Ok {A} a.
Arguments Err {A} k msg.

(** ** JSON payloads and responses *)

Inductive jval : Type := JStr (s : string) | JNull.

Definition jval_of (o : option string) : jval :=
  match o with Some s => JStr s | None => JNull end.

(** A Python dict with string keys, in insertion order. *)
Definition payload : Type := list (string * jval).

Fixpoint dict_get (k : string) (d : payload) : option jval :=
  match d with
  | [] => None
  | (k', v) :: d' => if String.eqb k k' then Some v else dict_get k d'
  end.

(** The decoded JSON body of the sink's answer: an object, or another
    JSON value (which has no [.get]). *)
Inductive json : Type :=
| JObject (fields : list (string * string))
| JNonObject.

Record response : Type := {
  status_code : nat;
  content_type : option string;   (* resp.headers.get("Content-Type") *)
  content : list ascii;           (* resp.content *)
  text : string;                  (* resp.text *)
  body_json : option json         (* resp.json(), None when not JSON *)
}.

(** ** BeautifulSoup documents

    [soup_title_string] is [soup.title.string] ([None] when there is no
    title element or it has no single string); a tag is known by its
    [.strings].  A bs4 [Tag] is always truthy. *)
Record tag : Type := { tag_strings : list string }.

Record soup : Type := {
  soup_title_string : option string;
  soup_article : option tag;
  soup_main : option tag;
  soup_body : option tag;
  soup_strings : list string
}.

(** [get_text(separator="\n", strip=True)]: every string stripped, empty
    ones dropped, joined with newlines. *)
Definition get_text_strip (strs : list string) : string :=
  concat (String nl EmptyString) (filter truthy (map py_strip strs)).

(** ** The library environment *)

Record Lib : Type := {
  (* urlparse(url).path *)
  urlparse_path : string -> result string;
  (* requests.head(url, ...).headers.get("Content-Type") *)
  http_head : string -> result (option string);
  (* requests.get(url, ...) *)
  http_get : string -> result response;
  (* requests.post(endpoint, headers=Bearer secret, json=payload) *)
  http_post : string -> string -> payload -> result response;
  (* BeautifulSoup(html, "html.parser") after decomposing the given tags *)
  html_soup : string -> list string -> soup;
  (* page.extract_text() for each page of PdfReader(path) *)
  pdf_pages_of_path : string -> result (list string);
  (* the same for the bytes written to a temporary file *)
  pdf_pages_of_bytes : list ascii -> result (list string);
  (* whether "from playwright.sync_api import sync_playwright" succeeds *)
  playwright_installed : bool;
  (* page.content() after page.goto(url, wait_until="networkidle") *)
  render_html : string -> result string;
  (* open(path).read() *)
  read_text : string -> result string;
  (* Path(p).stem *)
  path_stem : string -> string;
  (* str.title *)
  str_title : string -> string
}.

(** ** Observable effects

    Console output is recorded by call site, with the values it shows;
    [input] answers come from a stdin queue. *)
Inductive message : Type :=
| MRewriting (url : string)
| MStaticTooShort
| MServerReturnedHtml
| MDownloading (url : string)
| MFetching (url : string)
| MReading (path : string)
| MNoText
| MExtracted (n : nat)
| MAutoTitle (title : string)
| MPrompt (prompt : string)
| MIngesting (title : jval)
| MDone (result : list (string * string))
| MError (err : string)
| MAllDone
| MBatchStart (total : nat)
| MItem (i total : nat) (title : string)
| MUrl (url : string)
| MBatchNoText
| MOk (result : list (string * string))
| MSummary (succeeded total : nat)
| MFailedCount (n : nat)
| MFailedEntry (title err : string)
| MSkipEmpty (title : string)
| MSection (title : string)
| MLines (start_line end_line : Z)
| MChars (n : nat)
| MPreview (s : string)
| MIngested (result : list (string * string))
| MKidsDone (success errors : nat)
| MNoSecret
| MReadLines (n : nat) (input : string).

Inductive event : Type :=
| EvPrint (m : message)
| EvHead (url : string)
| EvGet (url : string)
| EvBrowser (url : string)
| EvPost (endpoint secret : string) (p : payload)
| EvSleep (seconds : nat).

Record state : Type := { st_log : list event; st_stdin : list string }.

(** ** The effect monad: state (log, stdin) and Python exceptions *)

Definition PyM (A : Type) : Type := state -> state * (exc + A).

Definition ret {A} (a : A) : PyM A := fun st => (st, inr a).

Definition bind {A B} (m : PyM A) (f : A -> PyM B) : PyM B :=
  fun st => match m st with
            | (st', inl e) => (st', inl e)
            | (st', inr a) => f a st'
            end.

Notation "x <- m ;; k" := (bind m (fun x => k))
  (at level 61, m at next level, right associativity).
Notation "m ;;; k" := (bind m (fun _ => k))
  (at level 61, right associativity).

Definition raise {A} (e : exc) : PyM A := fun st => (st, inl e).

Definition lift {A} (r : result A) : PyM A :=
  match r with
  | Ok a => ret a
  | Err k m => raise (PyException k m)
  end.

Definition emit (ev : event) : PyM unit :=
  fun st => ({| st_log := st_log st ++ [ev]; st_stdin := st_stdin st |}, inr tt).

Definition print (m : message) : PyM unit := emit (EvPrint m).

(** [try: m except <catches>: h(e)] *)
Definition try_except {A} (m : PyM A) (catches : exc -> bool)
  (h : exc -> PyM A) : PyM A :=
  fun st => match m st with
            | (st', inl e) => if catches e then h e st' else (st', inl e)
            | r => r
            end.

(** [input(prompt)]: EOFError on an exhausted stdin. *)
Definition input (prompt : string) : PyM string :=
  fun st => match st_stdin st with
            | [] => ({| st_log := st_log st ++ [EvPrint (MPrompt prompt)];
                        st_stdin := [] |}, inl (PyException EOFError "EOF when reading a line"))
            | l :: ls => ({| st_log := st_log st ++ [EvPrint (MPrompt prompt)];
                             st_stdin := ls |}, inr l)
            end.

Notation "' p <- m ;; k" := (bind m (fun x => match x with p => k end))
  (at level 61, p pattern, m at next level, right associativity).

(** ** ingest.py *)

Definition _MIN_CONTENT_LENGTH : nat := 200.

(** [requests.get] / [requests.head], recorded as network requests. *)
Definition requests_get (L : Lib) (url : string) : PyM response :=
  emit (EvGet url) ;;; lift (http_get L url).

Definition requests_head (L : Lib) (url : string) : PyM (option string) :=
  emit (EvHead url) ;;; lift (http_head L url).

(** [resp.raise_for_status()] *)
Definition raise_for_status (resp : response) : PyM unit :=
  if (400 <=? status_code resp) && (status_code resp <? 600)
  then raise (PyException HTTPError "HTTP error status")
  else ret tt.

(** [str.replace] of one character by another. *)
Fixpoint replace_char (a b : ascii) (s : string) : string :=
  match s with
  | EmptyString => EmptyString
  | String c s' => String (if Ascii.eqb c a then b else c) (replace_char a b s')
  end.

Definition two_newlines : string := String nl (String nl EmptyString).

(** The loop of [extract_pdf_text]: non-empty page texts, stripped,
    joined by a blank line. *)
Definition join_pages (texts : list string) : string :=
  concat two_newlines (map py_strip (filter truthy texts)).

Definition extract_pdf_text (L : Lib) (path : string) : PyM string :=
  texts <- lift (pdf_pages_of_path L path) ;;
  ret (join_pages texts).

Definition removed_tags : list string :=
  ["script"; "style"; "nav"; "footer"; "header"].

(** [soup.title.string.strip() if soup.title and soup.title.string else ""] *)
Definition soup_title (s : soup) : string :=
  match soup_title_string s with
  | Some t => if truthy t then py_strip t else ""
  | None => ""
  end.

(** [soup.find("article") or soup.find("main") or soup.find("body")], then
    [get_text(separator="\n", strip=True)] on it or on the whole soup. *)
Definition soup_text (s : soup) : string :=
  let article :=
    match soup_article s with
    | Some t => Some t
    | None => match soup_main s with
              | Some t => Some t
              | None => soup_body s
              end
    end in
  match article with
  | Some t => get_text_strip (tag_strings t)
  | None => get_text_strip (soup_strings s)
  end.

Definition _parse_html_response (L : Lib) (resp : response)
  : PyM (string * string) :=
  let s := html_soup L (text resp) removed_tags in
  ret (soup_title s, soup_text s).

Definition playwright_missing_msg : string :=
  "  ERROR: This page requires JavaScript rendering but Playwright is not installed.".

(** [_render_js_page]: [sys.exit(...)] raises [SystemExit] when the
    import of Playwright fails. *)
Definition _render_js_page (L : Lib) (url : string) : PyM (string * string) :=
  if negb (playwright_installed L) then raise (SystemExit playwright_missing_msg)
  else
    emit (EvBrowser url) ;;;
    html <- lift (render_html L url) ;;
    let s := html_soup L html removed_tags in
    ret (soup_title s, soup_text s).

Definition extract_web_text (L : Lib) (url : string) : PyM (string * string) :=
  resp <- requests_get L url ;;
  raise_for_status resp ;;;
  '(title, txt) <- _parse_html_response L resp ;;
  if _MIN_CONTENT_LENGTH <=? String.length (py_strip txt) then ret (title, txt)
  else print MStaticTooShort ;;; _render_js_page L url.

Definition is_pdf_url (L : Lib) (url : string) : PyM bool :=
  path <- lift (urlparse_path L url) ;;
  if py_endswith (py_lower path) ".pdf" then ret true
  else try_except
         (ct <- requests_head L url ;;
          ret (py_in "application/pdf" (match ct with Some c => c | None => "" end)))
         is_RequestException
         (fun _ => ret false).

Definition PDF_MAGIC : list ascii := list_ascii_of_string "%PDF-".

Definition download_pdf (L : Lib) (url : string) : PyM (string * string) :=
  resp <- requests_get L url ;;
  raise_for_status resp ;;;
  let ct := match content_type resp with Some c => c | None => "" end in
  let is_pdf := py_in "application/pdf" ct
                || (if list_eq_dec ascii_dec (firstn 5 (content resp)) PDF_MAGIC
                    then true else false) in
  if negb is_pdf then print MServerReturnedHtml ;;; _parse_html_response L resp
  else
    texts <- lift (pdf_pages_of_bytes L (content resp)) ;;
    path <- lift (urlparse_path L url) ;;
    let filename := path_stem L path in
    let title := if truthy filename
                 then str_title L (replace_char "_" " " (replace_char "-" " " filename))
                 else "" in
    ret (title, join_pages texts).

Definition guess_title_from_pdf (L : Lib) (path : string) : string :=
  str_title L (replace_char "_" " " (replace_char "-" " " (path_stem L path))).

Definition send_to_ingest (L : Lib) (endpoint secret : string) (p : payload)
  : PyM json :=
  emit (EvPost endpoint secret p) ;;;
  resp <- lift (http_post L endpoint secret p) ;;
  raise_for_status resp ;;;
  match body_json resp with
  | Some j => ret j
  | None => raise (PyException ValueError "Expecting value")
  end.

(** [result.get(...)]: only a JSON object has [.get]. *)
Definition result_fields (j : json) : PyM (list (string * string)) :=
  match j with
  | JObject f => ret f
  | JNonObject => raise (PyException AttributeError "object has no attribute 'get'")
  end.

Record metadata : Type := {
  m_title : string;
  m_author : option string;
  m_category : option string;
  m_source : option string;
  m_source_url : option string
}.

Definition opt_truthy (o : option string) : bool :=
  match o with Some s => truthy s | None => false end.

(** Python's [a or b] on optional strings. *)
Definition py_or (a b : option string) : option string :=
  if opt_truthy a then a else b.

(** [input(...).strip() or None] *)
Definition or_none (s : string) : option string :=
  if truthy s then Some s else None.

Definition prompt_metadata (auto_title : string) : PyM metadata :=
  print (MAutoTitle auto_title) ;;;
  t <- input ("  Title [" ++ auto_title ++ "]: ") ;;
  let title := if truthy (py_strip t) then py_strip t else auto_title in
  a <- input "  Author []: " ;;
  c <- input "  Category []: " ;;
  s <- input "  Source []: " ;;
  u <- input "  Source URL []: " ;;
  ret {| m_title := title; m_author := or_none (py_strip a);
         m_category := or_none (py_strip c); m_source := or_none (py_strip s);
         m_source_url := or_none (py_strip u) |}.

Definition normalize_url (url : string) : PyM string :=
  match pmc_match url with
  | Some g => print (MRewriting (g ++ "/")) ;;; ret (g ++ "/")
  | None => ret url
  end.

Record cli_args : Type := {
  a_title : option string;
  a_author : option string;
  a_category : option string;
  a_source : option string;
  a_source_url : option string;
  a_batch : bool
}.

(** Lines 250-270 of [process_one]: the metadata dict. *)
Definition assemble_metadata (args : cli_args) (auto_title : string)
  (auto_source_url : option string) : PyM metadata :=
  match a_title args with
  | Some t =>
      if truthy t then
        ret {| m_title := t; m_author := a_author args;
               m_category := a_category args; m_source := a_source args;
               m_source_url := py_or (a_source_url args) auto_source_url |}
      else if a_batch args then
        ret {| m_title := auto_title; m_author := a_author args;
               m_category := a_category args; m_source := a_source args;
               m_source_url := py_or (a_source_url args) auto_source_url |}
      else
        m <- prompt_metadata auto_title ;;
        if negb (opt_truthy (m_source_url m)) && opt_truthy auto_source_url
        then ret {| m_title := m_title m; m_author := m_author m;
                    m_category := m_category m; m_source := m_source m;
                    m_source_url := auto_source_url |}
        else ret m
  | None =>
      if a_batch args then
        ret {| m_title := auto_title; m_author := a_author args;
               m_category := a_category args; m_source := a_source args;
               m_source_url := py_or (a_source_url args) auto_source_url |}
      else
        m <- prompt_metadata auto_title ;;
        if negb (opt_truthy (m_source_url m)) && opt_truthy auto_source_url
        then ret {| m_title := m_title m; m_author := m_author m;
                    m_category := m_category m; m_source := m_source m;
                    m_source_url := auto_source_url |}
        else ret m
  end.

(** [{**metadata, "content": content}] *)
Definition payload_of (m : metadata) (content : string) : payload :=
  [("title", JStr (m_title m)); ("author", jval_of (m_author m));
   ("category", jval_of (m_category m)); ("source", jval_of (m_source m));
   ("source_url", jval_of (m_source_url m)); ("content", JStr content)].

Definition process_one (L : Lib) (target : string) (args : cli_args)
  (endpoint secret : string) : PyM unit :=
  let is_url := String.prefix "http://" target || String.prefix "https://" target in
  let is_txt := negb is_url && py_endswith (py_lower target) ".txt" in
  target <- (if is_url then normalize_url target else ret target) ;;
  pdf <- (if is_url then is_pdf_url L target else ret false) ;;
  '(auto_title, content, auto_source_url) <-
    (if pdf then
       print (MDownloading target) ;;;
       '(t, c) <- download_pdf L target ;; ret (t, c, Some target)
     else if is_url then
       print (MFetching target) ;;;
       '(t, c) <- extract_web_text L target ;; ret (t, c, Some target)
     else if is_txt then
       print (MReading target) ;;;
       c <- lift (read_text L target) ;;
       ret (guess_title_from_pdf L target, c, None)
     else
       print (MReading target) ;;;
       c <- extract_pdf_text L target ;;
       ret (guess_title_from_pdf L target, c, None)) ;;
  if negb (truthy (py_strip content)) then print MNoText
  else
    print (MExtracted (String.length content)) ;;;
    m <- assemble_metadata args auto_title auto_source_url ;;
    print (MIngesting (JStr (m_title m))) ;;;
    r <- send_to_ingest L endpoint secret (payload_of m content) ;;
    f <- result_fields r ;;
    print (MDone f).

(** Lines 314-321 of [main]: each target in its own [try]. *)
Fixpoint ingest_loop (L : Lib) (args : cli_args) (endpoint secret : string)
  (targets : list string) : PyM unit :=
  match targets with
  | [] => ret tt
  | t :: ts =>
      try_except (process_one L t args endpoint secret) is_Exception
                 (fun e => print (MError (exc_str e))) ;;;
      ingest_loop L args endpoint secret ts
  end.

Definition ingest_main_loop (L : Lib) (args : cli_args) (endpoint secret : string)
  (all_targets : list string) : PyM unit :=
  ingest_loop L args endpoint secret all_targets ;;; print MAllDone.

(** ** batch_ingest.py *)

(** An entry [(url, title, category, source)] of [ARTICLES]. *)
Record article : Type := mk_article {
  art_url : string;
  art_title : string;
  art_category : string;
  art_source : string
}.

(** [ARTICLES] *)
Definition ARTICLES : list article :=
  [
   mk_article "https://journal.crossfit.com/article/vo2-max-not-the-gold-standard-2"
     "VO2 Max: Not the Gold Standard" "physiology" "CrossFit Journal";
   mk_article "https://journal.crossfit.com/article/the-paradox-of-the-aerobic-fitness-prescription-2"
     "The Paradox of the Aerobic Fitness Prescription" "physiology" "CrossFit Journal";
   mk_article "https://journal.crossfit.com/article/anatomy-and-physiology-2"
     "Anatomy and Physiology" "physiology" "CrossFit Journal";
   mk_article "https://journal.crossfit.com/article/spine-mechanics-for-lifters-2"
     "Spine Mechanics for Lifters" "physiology" "CrossFit Journal";
   mk_article "http://www.academia.edu/23698675/"
     "Academia: CrossFit Research" "physiology" "Academia.edu";
   mk_article "https://bjsm.bmj.com/content/bjsports/51/4/211.full.pdf"
     "Sport and Exercise Medicine Research (BJSM)" "physiology" "British Journal of Sports Medicine";
   mk_article "https://journal.crossfit.com/article/human-power-output-and-crossfit-metcon-workouts-2"
     "Human Power Output and CrossFit Metcon Workouts" "journal" "CrossFit Journal";
   mk_article "http://journal.crossfit.com/2010/09/cpc-macromicro.tpl"
     "Macro and Micro Programming" "journal" "CrossFit Journal";
   mk_article "https://journal.crossfit.com/article/building-mental-toughness-2"
     "Building Mental Toughness" "journal" "CrossFit Journal";
   mk_article "https://journal.crossfit.com/article/value-kilgore-2"
     "The Value of CrossFit Training" "journal" "CrossFit Journal";
   mk_article "https://journal.crossfit.com/article/cfj-applications-of-the-support-on-rings"
     "Applications of the Support on Rings" "journal" "CrossFit Journal";
   mk_article "https://journal.crossfit.com/article/forcing-the-issue"
     "Forcing the Issue" "journal" "CrossFit Journal";
   mk_article "https://journal.crossfit.com/article/getting-inverted"
     "Getting Inverted" "journal" "CrossFit Journal";
   mk_article "https://journal.crossfit.com/article/getting-some-leverage-2"
     "Getting Some Leverage" "journal" "CrossFit Journal";
   mk_article "https://journal.crossfit.com/article/safety-and-efficacy-of-overhead-lifting"
     "Safety and Efficacy of Overhead Lifting" "journal" "CrossFit Journal";
   mk_article "https://journal.crossfit.com/article/cfj-the-athletic-hip"
     "The Athletic Hip" "journal" "CrossFit Journal";
   mk_article "https://journal.crossfit.com/article/cfj-the-scoop-and-the-second-pull"
     "The Scoop and the Second Pull" "journal" "CrossFit Journal";
   mk_article "https://journal.crossfit.com/article/the-role-of-bench-press-in-strength-training-2"
     "The Role of Bench Press in Strength Training" "journal" "CrossFit Journal";
   mk_article "https://journal.crossfit.com/article/where-barbells-come-from"
     "Where Barbells Come From" "journal" "CrossFit Journal";
   mk_article "https://journal.crossfit.com/article/charter-degain"
     "Charter: Degain" "journal" "CrossFit Journal";
   mk_article "https://journal.crossfit.com/article/calories-giardina-2"
     "Calories" "journal" "CrossFit Journal";
   mk_article "https://journal.crossfit.com/article/milking-fact-from-intolerance-2"
     "Milking Fact From Intolerance" "journal" "CrossFit Journal";
   mk_article "https://journal.crossfit.com/article/my-experiments-with-intermittent-fasting-2"
     "My Experiments With Intermittent Fasting" "journal" "CrossFit Journal";
   mk_article "https://journal.crossfit.com/article/nutrition-brief-pros-and-cons-of-intermittent-fasting-2"
     "Nutrition Brief: Pros and Cons of Intermittent Fasting" "journal" "CrossFit Journal";
   mk_article "https://journal.crossfit.com/article/race-day-fueling"
     "Race Day Fueling" "journal" "CrossFit Journal";
   mk_article "http://library.crossfit.com/free/pdf/CFJ_2015_07_Sugar_Beers6.pdf"
     "Sugar" "journal" "CrossFit Journal";
   mk_article "http://library.crossfit.com/free/pdf/CFJ_2016_06_Cancer-Saline4.pdf"
     "Cancer and Saline" "journal" "CrossFit Journal";
   mk_article "https://journal.crossfit.com/article/high-performance-pregnancy-2"
     "High-Performance Pregnancy" "journal" "CrossFit Journal";
   mk_article "https://journal.crossfit.com/article/make-your-life-better-get-horizontal-2"
     "Make Your Life Better: Get Horizontal" "journal" "CrossFit Journal";
   mk_article "https://journal.crossfit.com/article/skin-infections-and-the-crossfit-athlete"
     "Skin Infections and the CrossFit Athlete" "journal" "CrossFit Journal";
   mk_article "https://journal.crossfit.com/article/injury-galligani-2"
     "Injury" "journal" "CrossFit Journal";
   mk_article "https://journal.crossfit.com/article/protecting-your-business-the-waiver-2"
     "Protecting Your Business: The Waiver" "journal" "CrossFit Journal";
   mk_article "https://journal.crossfit.com/article/safety-for-athletes-and-trainers"
     "Safety for Athletes and Trainers" "journal" "CrossFit Journal";
   mk_article "https://assets.crossfit.com/pdfs/certifications/CCFT_CandidateHandbook.pdf"
     "CCFT Candidate Handbook" "journal" "CrossFit"].

Definition batch_payload (a : article) (content : string) : payload :=
  [("title", JStr (art_title a)); ("category", JStr (art_category a));
   ("source", JStr (art_source a)); ("source_url", JStr (art_url a));
   ("content", JStr content)].

(** How the [try] block of one item ends without an exception: by the
    [continue] of the empty-content case, or after a successful ingest. *)
Inductive item_outcome : Type := NoText | Ingested.

(** Lines 262-290: the body of the per-item [try]. *)
Definition batch_try_body (L : Lib) (endpoint secret : string) (a : article)
  : PyM item_outcome :=
  target <- normalize_url (art_url a) ;;
  pdf <- is_pdf_url L target ;;
  '(auto_title, content) <-
    (if pdf then download_pdf L target else extract_web_text L target) ;;
  if negb (truthy (py_strip content)) then print MBatchNoText ;;; ret NoText
  else
    print (MExtracted (String.length content)) ;;;
    r <- send_to_ingest L endpoint secret (batch_payload a content) ;;
    f <- result_fields r ;;
    print (MOk f) ;;;
    ret Ingested.

(** [try: ... except Exception as e: print(...)] around the body. *)
Definition batch_item_try (L : Lib) (endpoint secret : string) (a : article)
  : PyM (exc + item_outcome) :=
  try_except (o <- batch_try_body L endpoint secret a ;; ret (inr o))
             is_Exception
             (fun e => print (MError (exc_str e)) ;;; ret (inl e)).

(** The [for] loop of [main] (lines 257-297), [i] counting from 1. *)
Fixpoint batch_loop (L : Lib) (endpoint secret : string) (total i : nat)
  (items : list article) (succeeded : nat) (failed : list (string * string))
  : PyM (nat * list (string * string)) :=
  match items with
  | [] => ret (succeeded, failed)
  | a :: rest =>
      print (MItem i total (art_title a)) ;;;
      print (MUrl (art_url a)) ;;;
      o <- batch_item_try L endpoint secret a ;;
      match o with
      | inr NoText =>
          batch_loop L endpoint secret total (S i) rest succeeded
                     (failed ++ [(art_title a, "No text extracted")])
      | inr Ingested =>
          emit (EvSleep 1) ;;;
          batch_loop L endpoint secret total (S i) rest (S succeeded) failed
      | inl e =>
          emit (EvSleep 1) ;;;
          batch_loop L endpoint secret total (S i) rest succeeded
                     (failed ++ [(art_title a, exc_str e)])
      end
  end%list.

Fixpoint print_failures (failed : list (string * string)) : PyM unit :=
  match failed with
  | [] => ret tt
  | (t, err) :: rest => print (MFailedEntry t err) ;;; print_failures rest
  end.

(** [main] of batch_ingest.py, over a worklist ([ARTICLES] in the script). *)
Definition batch_run (L : Lib) (endpoint secret : string) (articles : list article)
  : PyM unit :=
  if negb (truthy secret) then print MNoSecret ;;; raise (SystemExit "1")
  else
    let total := List.length articles in
    print (MBatchStart total) ;;;
    '(succeeded, failed) <- batch_loop L endpoint secret total 1 articles 0 [] ;;
    print (MSummary succeeded total) ;;;
    match failed with
    | [] => ret tt
    | _ => print (MFailedCount (List.length failed)) ;;; print_failures failed
    end.

Definition batch_main (L : Lib) (endpoint secret : string) : PyM unit :=
  batch_run L endpoint secret ARTICLES.

(** ** ingest_kids.py *)

(** A section dict; [None] stands for a key that is absent. *)
Record section : Type := mk_section {
  sec_title : string;
  start_line : Z;
  end_line : Z;
  sec_category : option string;
  sec_author : option string;
  sec_source : option string
}.

(** [SECTIONS] *)
Definition SECTIONS : list section :=
  [
   mk_section "CrossFit Kids Science - Introduction and Research" 53 270
     (Some "kids") (Some "CrossFit Kids") (Some "CrossFit Kids Training Guide");
   mk_section "CrossFit Kids - Class Structure and Learning Environment" 270 520
     (Some "kids") (Some "CrossFit Kids") (Some "CrossFit Kids Training Guide");
   mk_section "CrossFit Kids Science - Motor Development and Physical Literacy" 520 800
     (Some "kids") (Some "CrossFit Kids") (Some "CrossFit Kids Training Guide");
   mk_section "CrossFit Kids Science - Exercise and Brain Development" 800 1100
     (Some "kids") (Some "CrossFit Kids") (Some "CrossFit Kids Training Guide");
   mk_section "CrossFit Kids Science - Resistance Training for Youth" 1100 1420
     (Some "kids") (Some "CrossFit Kids") (Some "CrossFit Kids Training Guide");
   mk_section "CrossFit Kids Science - Bone Health and Vestibular System" 1420 1720
     (Some "kids") (Some "CrossFit Kids") (Some "CrossFit Kids Training Guide");
   mk_section "CrossFit Kids - Optimizing the Learning Environment" 1720 2310
     (Some "kids") (Some "CrossFit Kids") (Some "CrossFit Kids Training Guide");
   mk_section "CrossFit Kids Nutrition and Lifestyle" 2310 2850
     (Some "kids") (Some "CrossFit Kids") (Some "CrossFit Kids Training Guide");
   mk_section "CrossFit Kids - Movement: Squat" 5483 5700
     (Some "kids") (Some "CrossFit Kids") (Some "CrossFit Kids Training Guide");
   mk_section "CrossFit Kids - Movement: Front Squat" 5700 5780
     (Some "kids") (Some "CrossFit Kids") (Some "CrossFit Kids Training Guide");
   mk_section "CrossFit Kids - Movement: Overhead Squat" 5780 5855
     (Some "kids") (Some "CrossFit Kids") (Some "CrossFit Kids Training Guide");
   mk_section "CrossFit Kids - Movement: Press" 5855 5975
     (Some "kids") (Some "CrossFit Kids") (Some "CrossFit Kids Training Guide");
   mk_section "CrossFit Kids - Movement: Thruster" 5975 6060
     (Some "kids") (Some "CrossFit Kids") (Some "CrossFit Kids Training Guide");
   mk_section "CrossFit Kids - Movement: Push Press" 6060 6130
     (Some "kids") (Some "CrossFit Kids") (Some "CrossFit Kids Training Guide");
   mk_section "CrossFit Kids - Movement: Push Jerk" 6130 6265
     (Some "kids") (Some "CrossFit Kids") (Some "CrossFit Kids Training Guide");
   mk_section "CrossFit Kids - Movement: Deadlift" 6265 6418
     (Some "kids") (Some "CrossFit Kids") (Some "CrossFit Kids Training Guide");
   mk_section "CrossFit Kids - Movement: Sumo Deadlift High Pull" 6418 6525
     (Some "kids") (Some "CrossFit Kids") (Some "CrossFit Kids Training Guide");
   mk_section "CrossFit Kids - Movement: Hang Power Clean" 6525 6607
     (Some "kids") (Some "CrossFit Kids") (Some "CrossFit Kids Training Guide");
   mk_section "CrossFit Kids - Movement: Pull-Up, Push-Up, and Handstand Push-Up" 6607 6870
     (Some "kids") (Some "CrossFit Kids") (Some "CrossFit Kids Training Guide");
   mk_section "CrossFit Kids - Safety Guidelines" 6865 6970
     (Some "kids") (Some "CrossFit Kids") (Some "CrossFit Kids Training Guide");
   mk_section "CrossFit Kids - Class Structure: Preschool, Kids, and Teens" 6967 7140
     (Some "kids") (Some "CrossFit Kids") (Some "CrossFit Kids Training Guide");
   mk_section "CrossFit Kids - Equipment List and Scaling" 7138 7275
     (Some "kids") (Some "CrossFit Kids") (Some "CrossFit Kids Training Guide");
   mk_section "CrossFit Kids - Frequently Asked Questions" 7272 7510
     (Some "kids") (Some "CrossFit Kids") (Some "CrossFit Kids Training Guide");
   mk_section "Protecting CrossFit Kids from Predation" 5121 5483
     (Some "kids") (Some "CrossFit Kids") (Some "CrossFit Kids Training Guide")].

(** [l[start:stop]] with Python's treatment of negative and large bounds. *)
Definition py_slice {A : Type} (l : list A) (start stop : Z) : list A :=
  let n := Z.of_nat (List.length l) in
  let norm i := if (i <? 0)%Z then Z.max 0 (i + n) else Z.min i n in
  let s := norm start in
  let e := norm stop in
  firstn (Z.to_nat (e - s)) (skipn (Z.to_nat s) l).

(** [lines[start:end]] with [start = start_line - 1], [end = end_line]. *)
Definition raw_slice (lines : list string) (sec : section) : list string :=
  py_slice lines (start_line sec - 1) (end_line sec).

(** [raw_text = "".join(lines[start:end])] *)
Definition raw_text (lines : list string) (sec : section) : string :=
  concat "" (raw_slice lines sec).

Definition kids_payload (sec : section) (cleaned : string) : payload :=
  [("title", JStr (sec_title sec)); ("author", jval_of (sec_author sec));
   ("category", JStr (match sec_category sec with Some c => c | None => "kids" end));
   ("source", JStr (match sec_source sec with
                    | Some c => c | None => "CrossFit Kids Training Guide" end));
   ("content", JStr cleaned)].

(** The [for section in SECTIONS] loop of [main] (lines 307-347). *)
Fixpoint kids_loop (L : Lib) (endpoint secret : string) (dry_run : bool)
  (lines : list string) (sections : list section) (success errors : nat)
  : PyM (nat * nat) :=
  match sections with
  | [] => ret (success, errors)
  | sec :: rest =>
      let cleaned := clean_ocr_text (raw_text lines sec) in
      if negb (truthy (py_strip cleaned)) then
        print (MSkipEmpty (sec_title sec)) ;;;
        kids_loop L endpoint secret dry_run lines rest success errors
      else
        print (MSection (sec_title sec)) ;;;
        print (MLines (start_line sec) (end_line sec)) ;;;
        print (MChars (String.length cleaned)) ;;;
        if dry_run then
          print (MPreview (replace_char nl " " (substring 0 200 cleaned))) ;;;
          kids_loop L endpoint secret dry_run lines rest success errors
        else
          ok <- try_except
                  (r <- send_to_ingest L endpoint secret (kids_payload sec cleaned) ;;
                   f <- result_fields r ;;
                   print (MIngested f) ;;;
                   ret true)
                  is_Exception
                  (fun e => print (MError (exc_str e)) ;;; ret false) ;;
          if ok then kids_loop L endpoint secret dry_run lines rest (S success) errors
          else kids_loop L endpoint secret dry_run lines rest success (S errors)
  end.

(** [main] of ingest_kids.py from the lines read (after the secret check). *)
Definition kids_main (L : Lib) (endpoint secret input_path : string)
  (dry_run : bool) (lines : list string) : PyM unit :=
  print (MReadLines (List.length lines) input_path) ;;;
  '(s, e) <- kids_loop L endpoint secret dry_run lines SECTIONS 0 0 ;;
  print (MKidsDone s e).

(** ** Predicates used in the statements *)

Fixpoint str_forallb (p : ascii -> bool) (s : string) : bool :=
  match s with
  | EmptyString => true
  | String c s' => p c && str_forallb p s'
  end.

Definition not_newline (c : ascii) : bool := negb (Ascii.eqb c nl).

(** Head of a string is not whitespace (or the string is empty). *)
Definition hd_ok (s : string) : bool :=
  match s with
  | EmptyString => true
  | String c _ => negb (py_isspace c)
  end.

(** A match of [r] that starts at this position and is not empty. *)
Definition nonempty_match (r : regex) (prev : option ascii) (s : list ascii) : bool :=
  match mt r prev s kfin with
  | Some (_, rest) => List.length rest <? List.length s
  | None => false
  end.

(** No position of [s] starts a (non-empty) match of [r]. *)
Fixpoint no_match_from (r : regex) (prev : option ascii) (s : list ascii) : bool :=
  negb (nonempty_match r prev s) &&
  match s with
  | [] => true
  | c :: s' => no_match_from r (Some c) s'
  end.

Definition no_match (r : regex) (text : string) : bool :=
  no_match_from r None (list_ascii_of_string text).

(** None of the patterns applied by [clean_ocr_text] matches in [y]. *)
Definition artifact_free (y : string) : bool :=
  no_match PAGE_HEADER_RE y && no_match PAGE_FOOTER_RE y
  && no_match COPYRIGHT_RE y && no_match VERSION_RE y
  && no_match CROSSFIT_LOGO_RE y && no_match PAGE_NUM_RE y
  && no_match CONTINUED_HEADER_RE y && no_match BLANK_RUN_RE y.

Definition lines_text (l : list string) : string := concat (String nl EmptyString) l.

(** ** Reading a run's report off the log *)

(** The report lines of batch_ingest.py: the item headers, the summary and
    the list of failures. *)
Definition is_report (ev : event) : bool :=
  match ev with
  | EvPrint (MItem _ _ _) | EvPrint (MSummary _ _) | EvPrint (MFailedCount _)
  | EvPrint (MFailedEntry _ _) => true
  | _ => false
  end.

Definition quiet (log : list event) : bool :=
  forallb (fun ev => negb (is_report ev)) log.

(** [(i, title)] of every [[i/total] title] header, in order. *)
Fixpoint item_headers (log : list event) : list (nat * string) :=
  match log with
  | [] => []
  | EvPrint (MItem i _ t) :: l => (i, t) :: item_headers l
  | _ :: l => item_headers l
  end.

(** The titles of the [- title: err] lines of the failure list. *)
Fixpoint failure_titles (log : list event) : list string :=
  match log with
  | [] => []
  | EvPrint (MFailedEntry t _) :: l => t :: failure_titles l
  | _ :: l => failure_titles l
  end.

(** The [=== Done: succeeded/total succeeded ===] lines. *)
Fixpoint summaries (log : list event) : list (nat * nat) :=
  match log with
  | [] => []
  | EvPrint (MSummary s n) :: l => (s, n) :: summaries l
  | _ :: l => summaries l
  end.

(** A computation that prints no report line and whose exceptions, if any,
    are [Exception]s, never [SystemExit]. *)
Definition tame {A} (m : PyM A) : Prop :=
  forall st st' r, m st = (st', r) ->
    (exists tail, st_log st' = (st_log st ++ tail)%list /\ quiet tail = true)
    /\ match r with inl e => is_Exception e = true | inr _ => True end.

(** One item of the batch loop: its [try] block ends, caught or not, and
    prints no report line. *)
Definition item_completes (L : Lib) (endpoint secret : string) (a : article) : Prop :=
  forall st, exists st' o tail,
    batch_item_try L endpoint secret a st = (st', inr o)
    /\ st_log st' = (st_log st ++ tail)%list /\ quiet tail = true.

(** [l] is [l'] with some elements dropped. *)
Inductive subseq {A : Type} : list A -> list A -> Prop :=
| subseq_nil : subseq [] []
| subseq_keep x l l' : subseq l l' -> subseq (x :: l) (x :: l')
| subseq_drop x l l' : subseq l l' -> subseq l (x :: l').

(** A URL that [is_pdf_url] classifies as not a PDF (suffix check fails,
    HEAD probe says otherwise or fails), and whose static HTML yields
    less than [_MIN_CONTENT_LENGTH] characters of body text. *)
Definition needs_rendering (L : Lib) (url : string) : Prop :=
  (exists path, urlparse_path L url = Ok path
                /\ py_endswith (py_lower path) ".pdf" = false)
  /\ match http_head L url with
     | Ok ct => py_in "application/pdf" (match ct with Some c => c | None => "" end) = false
     | Err k _ => is_request_kind k = true
     end
  /\ (exists resp, http_get L url = Ok resp
       /\ ((400 <=? status_code resp) && (status_code resp <? 600)) = false
       /\ String.length (py_strip (soup_text (html_soup L (text resp) removed_tags)))
          < _MIN_CONTENT_LENGTH).

(** ** ingest_kids.py: the command-line [main] *)

(** [f.readlines()] on a file opened in text mode: the text (line endings
    already translated to ["\n"] by [open]) cut after every ["\n"]; the
    last line keeps no terminator when the text does not end in one. *)
Fixpoint readlines (s : string) : list string :=
  match s with
  | EmptyString => []
  | String c s' =>
      if Ascii.eqb c nl then String c EmptyString :: readlines s'
      else match readlines s' with
           | [] => [String c EmptyString]
           | l :: ls => String c l :: ls
           end
  end.

(** [main] of ingest_kids.py (lines 294-349): the secret check (its error
    line is the missing-secret message [MNoSecret]), the read of the input
    file, then the loop over [SECTIONS]. *)
Definition ingest_kids_main (L : Lib) (endpoint secret input_path : string)
  (dry_run : bool) : PyM unit :=
  if negb dry_run && negb (truthy secret) then
    print MNoSecret ;;; raise (SystemExit "1")
  else
    txt <- lift (read_text L input_path) ;;
    kids_main L endpoint secret input_path dry_run (readlines txt).

(** ** Classes of events *)

(** A request that fetches a source: HEAD, GET or a browser visit. *)
Definition is_fetch (ev : event) : bool :=
  match ev with EvHead _ | EvGet _ | EvBrowser _ => true | _ => false end.

Definition is_post (ev : event) : bool :=
  match ev with EvPost _ _ _ => true | _ => false end.

Definition is_prompt (ev : event) : bool :=
  match ev with EvPrint (MPrompt _) => true | _ => false end.

(** A POST is to [endpoint], authorised with [secret], and its payload has
    a [content] string that is not blank; other events pass. *)
Definition post_ok (endpoint secret : string) (ev : event) : bool :=
  match ev with
  | EvPost ep s p =>
      String.eqb ep endpoint && String.eqb s secret
      && match dict_get "content" p with
         | Some (JStr c) => truthy (py_strip c)
         | _ => false
         end
  | _ => true
  end.

(** The closing lines of batch_ingest.py: the summary and the failure
    entries. *)
Definition is_tally (ev : event) : bool :=
  match ev with
  | EvPrint (MSummary _ _) | EvPrint (MFailedEntry _ _) => true
  | _ => false
  end.

(** Every run of [m] only appends to the log, and what it appends
    satisfies [P]. *)
Definition keeps (P : event -> bool) {A} (m : PyM A) : Prop :=
  forall st st' r, m st = (st', r) ->
    exists tail, st_log st' = (st_log st ++ tail)%list /\ forallb P tail = true.

(** No run of [m] consumes standard input. *)
Definition stdin_kept {A} (m : PyM A) : Prop :=
  forall st st' r, m st = (st', r) -> st_stdin st' = st_stdin st.

(** A run of [m] consumes the next five lines of stdin, or all of it when
    fewer remain; it ends normally only when five lines were there. *)
Definition takes5 {A} (m : PyM A) : Prop :=
  forall st st' r, m st = (st', r) ->
    st_stdin st' = skipn 5 (st_stdin st)
    /\ (forall a, r = inr a -> 5 <= List.length (st_stdin st)).

(** A run of [m] extends the log, reads either no line of stdin or the
    next five (all of it when fewer remain), and logs a POST only after
    five lines were read. *)
Definition posts_after5 {A} (m : PyM A) : Prop :=
  forall st st' r, m st = (st', r) ->
    exists tail, st_log st' = (st_log st ++ tail)%list
      /\ (st_stdin st' = st_stdin st \/ st_stdin st' = skipn 5 (st_stdin st))
      /\ (existsb is_post tail = true ->
            5 <= List.length (st_stdin st) /\ st_stdin st' = skipn 5 (st_stdin st)).

(** ** A sample environment

    Used to evaluate the model on concrete inputs: HEAD requests fail
    (offline), a GET answers 200 with the URL as its HTML, the page at
    [spa_url] is a script shell whose static text is short, the page at
    [untitled_url] has no title element, and the sink rejects (HTTP 500)
    every payload whose title is [failing_title]. *)

Definition long_text : string := concat "" (repeat "lorem ipsum dolor " 12).
Definition spa_url : string := "https://example.com/app".
Definition untitled_url : string := "https://example.com/untitled".
Definition page_url : string := "https://example.com/article".

Fixpoint after_host (s : string) : string :=
  match s with
  | EmptyString => EmptyString
  | String c s' => if Ascii.eqb c "/" then s else after_host s'
  end.

Definition sample_path (u : string) : string :=
  match strip_prefix "https://" u with
  | Some r => after_host r
  | None => match strip_prefix "http://" u with
            | Some r => after_host r
            | None => u
            end
  end.

Definition sample_soup (html : string) (_ : list string) : soup :=
  {| soup_title_string :=
       if String.eqb html untitled_url then None else Some "  A Title ";
     soup_article :=
       Some {| tag_strings :=
                 [if String.eqb html spa_url then "Loading..." else long_text] |};
     soup_main := None; soup_body := None; soup_strings := [] |}.

Definition html_response (html : string) : response :=
  {| status_code := 200; content_type := Some "text/html"; content := [];
     text := html; body_json := None |}.

Definition sink_ok : response :=
  {| status_code := 200; content_type := Some "application/json"; content := [];
     text := ""; body_json := Some (JObject [("chunks_ingested", "3");
                                              ("total_tokens", "900")]) |}.

Definition sink_error : response :=
  {| status_code := 500; content_type := None; content := [];
     text := ""; body_json := None |}.

Definition sample_lib (playwright : bool) (failing_title : string) : Lib :=
  {| urlparse_path := fun u => Ok (sample_path u);
     http_head := fun _ => Err ConnectionError "Connection refused";
     http_get := fun u => Ok (html_response u);
     http_post := fun _ _ p =>
       match dict_get "title" p with
       | Some (JStr t) => if String.eqb t failing_title then Ok sink_error else Ok sink_ok
       | _ => Ok sink_ok
       end;
     html_soup := sample_soup;
     pdf_pages_of_path := fun _ => Ok ["A"; "B"];
     pdf_pages_of_bytes := fun _ => Ok ["A"; "B"];
     playwright_installed := playwright;
     render_html := fun u => Ok ("rendered " ++ u);
     read_text := fun _ => Ok "hello";
     path_stem := fun p => p;
     str_title := fun t => t |}.

Definition st0 : state := {| st_log := []; st_stdin := [] |}.

(** * Properties *)

Lemma sappend_assoc (a b c : string) : (a ++ b) ++ c = a ++ (b ++ c).
Proof. induction a as [|x a IH]; simpl; [reflexivity | now rewrite IH]. Qed.

Lemma strip_prefix_app (p s : string) : strip_prefix p (p ++ s) = Some s.
Proof.
  induction p as [|a p IH]; simpl; [reflexivity|].
  now rewrite Ascii.eqb_refl.
Qed.

Lemma strip_prefix_not_prefix (p s : string) :
  String.prefix p s = false -> strip_prefix p s = None.
Proof.
  revert s; induction p as [|a p IH]; intros [|b s] H; simpl in *;
    try discriminate; try reflexivity.
  destruct (ascii_dec a b) as [->|Hne].
  - rewrite Ascii.eqb_refl. now apply IH.
  - destruct (Ascii.eqb a b) eqn:E; [apply Ascii.eqb_eq in E; contradiction|reflexivity].
Qed.

Lemma span_digits_app (ds : string) (c : ascii) (s : string) :
  str_forallb is_digit ds = true -> is_digit c = false ->
  span_digits (ds ++ String c s) = (ds, String c s).
Proof.
  intros Hd Hc; induction ds as [|x ds IH]; simpl in *.
  - now rewrite Hc.
  - apply andb_prop in Hd as [Hx Hds]. rewrite Hx, (IH Hds). reflexivity.
Qed.

Lemma span_digits_digits (s : string) :
  str_forallb is_digit (fst (span_digits s)) = true.
Proof.
  induction s as [|c s IH]; simpl; [reflexivity|].
  destruct (is_digit c) eqn:E; simpl; [|reflexivity].
  destruct (span_digits s) as [d r]; simpl in *. now rewrite E, IH.
Qed.

Lemma pmc_match_from_shape (pfx url g : string) :
  pmc_match_from pfx url = Some g ->
  exists ds, g = pfx ++ ds /\ str_forallb is_digit ds = true.
Proof.
  unfold pmc_match_from.
  destruct (strip_prefix pfx url) as [r|]; [|discriminate].
  pose proof (span_digits_digits r) as Hd.
  destruct (span_digits r) as [ds r']; simpl in Hd.
  destruct (String.eqb ds ""); [discriminate|].
  destruct (strip_prefix "/pdf/" r') as [r''|]; [|discriminate].
  destruct (dot_plus_pdf r''); [|discriminate].
  intros H; injection H as <-. now exists ds.
Qed.

Lemma pmc_match_from_canonical (pfx ds : string) :
  str_forallb is_digit ds = true ->
  pmc_match_from pfx ((pfx ++ ds) ++ "/") = None.
Proof.
  intros Hd. unfold pmc_match_from.
  rewrite sappend_assoc, strip_prefix_app, (span_digits_app ds "/" "" Hd eq_refl).
  destruct (String.eqb ds ""); reflexivity.
Qed.

Lemma pmc_http_not_https (x : string) :
  pmc_match_from pmc_http (pmc_https ++ x) = None.
Proof. reflexivity. Qed.

Lemma pmc_https_not_http (x : string) :
  pmc_match_from pmc_https (pmc_http ++ x) = None.
Proof. reflexivity. Qed.

Lemma pmc_match_canonical (g : string) (url : string) :
  pmc_match url = Some g -> pmc_match (g ++ "/") = None.
Proof.
  unfold pmc_match.
  destruct (pmc_match_from pmc_https url) as [g1|] eqn:E1.
  - intros H; injection H as <-.
    destruct (pmc_match_from_shape _ _ _ E1) as [ds [-> Hd]].
    rewrite pmc_match_from_canonical by exact Hd.
    rewrite sappend_assoc. apply pmc_http_not_https.
  - intros E2. destruct (pmc_match_from_shape _ _ _ E2) as [ds [-> Hd]].
    rewrite sappend_assoc, pmc_https_not_http, <- sappend_assoc.
    now apply pmc_match_from_canonical.
Qed.

(** C5: URL normalisation is idempotent. *)
Theorem normalize_url_idempotent (u : string) :
  normalize_url_value (normalize_url_value u) = normalize_url_value u.
Proof.
  unfold normalize_url_value at 2 3.
  destruct (pmc_match u) as [g|] eqn:E.
  - unfold normalize_url_value. now rewrite (pmc_match_canonical g u E).
  - unfold normalize_url_value. now rewrite E.
Qed.

Lemma normalize_url_returns (u : string) (st : state) :
  normalize_url u st = (fst (normalize_url u st), inr (normalize_url_value u)).
Proof.
  unfold normalize_url, normalize_url_value.
  destruct (pmc_match u); reflexivity.
Qed.

Lemma dot_plus_pdf_file (file tail : string) :
  file <> "" -> str_forallb not_newline file = true ->
  dot_plus_pdf (file ++ ".pdf" ++ tail) = true.
Proof.
  induction file as [|c f IH]; intros Hne Hf; [congruence|].
  simpl in Hf. apply andb_prop in Hf as [Hc Hf].
  unfold not_newline in Hc.
  destruct f as [|c' f'].
  - simpl. rewrite Hc. destruct tail; reflexivity.
  - assert (IH' := IH ltac:(discriminate) Hf).
    simpl in IH' |- *. rewrite Hc, IH'. apply orb_true_r.
Qed.

Lemma pmc_match_from_pdf (pfx ds file tail : string) :
  ds <> "" -> str_forallb is_digit ds = true ->
  file <> "" -> str_forallb not_newline file = true ->
  pmc_match_from pfx (pfx ++ ds ++ "/pdf/" ++ file ++ ".pdf" ++ tail)
  = Some (pfx ++ ds).
Proof.
  intros Hne Hd Hf Hfn. unfold pmc_match_from.
  rewrite strip_prefix_app.
  change ("/pdf/" ++ file ++ ".pdf" ++ tail)
    with (String "/" ("pdf/" ++ file ++ ".pdf" ++ tail)).
  rewrite (span_digits_app ds "/" _ Hd eq_refl).
  destruct (String.eqb ds "") eqn:E; [apply String.eqb_eq in E; contradiction|].
  change (String "/" ("pdf/" ++ file ++ ".pdf" ++ tail))
    with ("/pdf/" ++ (file ++ ".pdf" ++ tail)).
  rewrite strip_prefix_app, dot_plus_pdf_file by assumption.
  reflexivity.
Qed.

(** C3 (as stated): on the host [host] the PMC viewer URL is not rewritten. *)
Lemma normalize_url_other_host_counterexample :
  normalize_url_value "https://host/articles/PMC123456/pdf/foo.pdf"
    = "https://host/articles/PMC123456/pdf/foo.pdf"
  /\ normalize_url_value "https://host/articles/PMC123456/pdf/foo.pdf"
    <> "https://host/articles/PMC123456/".
Proof. split; vm_compute; [reflexivity | discriminate]. Qed.

(** C3 (amended): a PDF URL on pmc.ncbi.nlm.nih.gov (http or https) of the
    shape [.../articles/PMC<digits>/pdf/<file>.pdf...] is rewritten to
    [.../articles/PMC<digits>/]; a URL that does not start with one of the
    two PMC article prefixes, i.e. any other host, is returned unchanged. *)
Theorem normalize_url_pmc_only (pfx ds file tail u : string) :
  (pfx = pmc_https \/ pfx = pmc_http) ->
  ds <> "" -> str_forallb is_digit ds = true ->
  file <> "" -> str_forallb not_newline file = true ->
  String.prefix pmc_https u = false -> String.prefix pmc_http u = false ->
  normalize_url_value (pfx ++ ds ++ "/pdf/" ++ file ++ ".pdf" ++ tail)
    = pfx ++ ds ++ "/"
  /\ normalize_url_value u = u.
Proof.
  intros Hpfx Hne Hd Hf Hfn Hu1 Hu2. split.
  - unfold normalize_url_value, pmc_match.
    destruct Hpfx as [-> | ->].
    + rewrite pmc_match_from_pdf by assumption. now rewrite sappend_assoc.
    + rewrite pmc_https_not_http, pmc_match_from_pdf by assumption.
      now rewrite sappend_assoc.
  - unfold normalize_url_value, pmc_match, pmc_match_from.
    rewrite (strip_prefix_not_prefix _ _ Hu1), (strip_prefix_not_prefix _ _ Hu2).
    reflexivity.
Qed.

Lemma normalize_url_pmc_only_witness :
  normalize_url_value
    (pmc_https ++ "123456" ++ "/pdf/" ++ "foo" ++ ".pdf" ++ "")
    = pmc_https ++ "123456" ++ "/"
  /\ normalize_url_value "https://host/articles/PMC123456/pdf/foo.pdf"
     = "https://host/articles/PMC123456/pdf/foo.pdf".
Proof.
  apply (normalize_url_pmc_only pmc_https "123456" "foo" ""
           "https://host/articles/PMC123456/pdf/foo.pdf");
    try (left; reflexivity); try discriminate; reflexivity.
Defined.

(** ** Python's [strip] *)

Lemma sappend_empty_r (a : string) : a ++ "" = a.
Proof. induction a as [|c a IH]; simpl; [reflexivity | now rewrite IH]. Qed.

Lemma srev_app (a b : string) : srev (a ++ b) = srev b ++ srev a.
Proof.
  induction a as [|c a IH]; simpl.
  - now rewrite sappend_empty_r.
  - now rewrite IH, sappend_assoc.
Qed.

Lemma srev_srev (a : string) : srev (srev a) = a.
Proof.
  induction a as [|c a IH]; simpl; [reflexivity|].
  now rewrite srev_app, IH.
Qed.

Lemma srev_empty (a : string) : srev a = "" -> a = "".
Proof.
  intros H. rewrite <- (srev_srev a), H. reflexivity.
Qed.

Lemma lstrip_suffix (s : string) : exists w, s = w ++ lstrip s.
Proof.
  induction s as [|c s [w IH]]; simpl.
  - now exists "".
  - destruct (py_isspace c).
    + exists (String c w). simpl. now rewrite <- IH.
    + now exists "".
Qed.

Lemma lstrip_hd (s : string) : hd_ok (lstrip s) = true.
Proof.
  induction s as [|c s IH]; simpl; [reflexivity|].
  destruct (py_isspace c) eqn:E; [exact IH | simpl; now rewrite E].
Qed.

Lemma lstrip_id (s : string) : hd_ok s = true -> lstrip s = s.
Proof.
  destruct s as [|c s]; simpl; [reflexivity|].
  intros H. apply negb_true_iff in H. now rewrite H.
Qed.

Lemma rstrip_prefix (s : string) : exists w, s = rstrip s ++ w.
Proof.
  unfold rstrip. destruct (lstrip_suffix (srev s)) as [w Hw].
  exists (srev w). rewrite <- srev_app, <- Hw. symmetry. apply srev_srev.
Qed.

Lemma hd_ok_app (a b : string) : a <> "" -> hd_ok (a ++ b) = hd_ok a.
Proof. destruct a; [congruence | reflexivity]. Qed.

Lemma py_strip_ends (q : string) :
  py_strip q <> "" ->
  hd_ok (py_strip q) = true /\ hd_ok (srev (py_strip q)) = true.
Proof.
  intros Hne. unfold py_strip in *. split.
  - destruct (rstrip_prefix (lstrip q)) as [w Hw].
    rewrite <- (hd_ok_app _ w Hne), <- Hw. apply lstrip_hd.
  - unfold rstrip. rewrite srev_srev. apply lstrip_hd.
Qed.

Lemma py_strip_id (s : string) :
  hd_ok s = true -> hd_ok (srev s) = true -> py_strip s = s.
Proof.
  intros H1 H2. unfold py_strip, rstrip.
  rewrite (lstrip_id s H1), (lstrip_id (srev s) H2). apply srev_srev.
Qed.

Definition strip_piece (p : string) : Prop :=
  p <> "" /\ hd_ok p = true /\ hd_ok (srev p) = true.

Lemma concat_pieces (sep : string) (ps : list string) :
  ps <> [] -> Forall strip_piece ps ->
  concat sep ps <> ""
  /\ hd_ok (concat sep ps) = true /\ hd_ok (srev (concat sep ps)) = true.
Proof.
  induction ps as [|p ps IH]; intros Hne Hall; [congruence|].
  inversion Hall as [|? ? [Hp1 [Hp2 Hp3]] Hrest]; subst.
  destruct ps as [|q ps'].
  - simpl. auto.
  - destruct (IH ltac:(discriminate) Hrest) as [Hc1 [Hc2 Hc3]].
    change (concat sep (p :: q :: ps')) with (p ++ sep ++ concat sep (q :: ps')).
    split; [|split].
    + destruct p; [congruence | discriminate].
    + now rewrite hd_ok_app.
    + rewrite !srev_app, sappend_assoc, hd_ok_app; [exact Hc3|].
      intros E. apply srev_empty in E. contradiction.
Qed.

(** The body text produced by [get_text(separator="\n", strip=True)] has
    no leading or trailing whitespace. *)
Lemma get_text_strip_stripped (strs : list string) :
  py_strip (get_text_strip strs) = get_text_strip strs.
Proof.
  unfold get_text_strip.
  set (ps := filter truthy (map py_strip strs)).
  assert (Hall : Forall strip_piece ps).
  { subst ps. apply Forall_forall. intros p Hin.
    apply filter_In in Hin as [Hin Ht].
    apply in_map_iff in Hin as [q [<- _]].
    assert (Hne : py_strip q <> "").
    { unfold truthy in Ht. intros E. rewrite E in Ht. discriminate. }
    destruct (py_strip_ends q Hne). repeat split; assumption. }
  destruct ps as [|p ps'] eqn:E.
  - reflexivity.
  - destruct (concat_pieces (String nl EmptyString) (p :: ps') ltac:(discriminate) Hall)
      as [_ [H1 H2]].
    now apply py_strip_id.
Qed.

Lemma soup_text_stripped (s : soup) : py_strip (soup_text s) = soup_text s.
Proof.
  unfold soup_text.
  destruct (soup_article s), (soup_main s), (soup_body s);
    apply get_text_strip_stripped.
Qed.

(** ** Classification and extraction of URLs *)

(** C6: a URL whose path ends in [.pdf] is classified as a PDF with no
    request at all (the log is unchanged); otherwise a HEAD request is
    made, and when it raises a [requests.RequestException] (connection
    error, timeout, ...) the answer is "not a PDF", with no exception. *)
Theorem is_pdf_url_suffix_or_probe (L : Lib) (url path : string) (st : state) :
  urlparse_path L url = Ok path ->
  (py_endswith (py_lower path) ".pdf" = true ->
     is_pdf_url L url st = (st, inr true))
  /\ (forall k m,
        py_endswith (py_lower path) ".pdf" = false ->
        is_request_kind k = true -> http_head L url = Err k m ->
        is_pdf_url L url st
        = ({| st_log := st_log st ++ [EvHead url]; st_stdin := st_stdin st |},
           inr false)).
Proof.
  intros Hp. unfold is_pdf_url, bind, lift. rewrite Hp.
  cbv beta iota delta [ret]. split.
  - intros Hs. now rewrite Hs.
  - intros k m Hs Hk Hh. rewrite Hs.
    unfold try_except, requests_head, bind, emit, lift. rewrite Hh.
    unfold raise, is_RequestException. simpl. rewrite Hk. reflexivity.
Qed.

Lemma is_pdf_url_suffix_or_probe_witness :
  is_pdf_url (sample_lib true "") "https://example.com/files/Doc.PDF" st0
    = (st0, inr true)
  /\ is_pdf_url (sample_lib true "") page_url st0
    = ({| st_log := [EvHead page_url]; st_stdin := [] |}, inr false).
Proof.
  split.
  - apply (proj1 (is_pdf_url_suffix_or_probe (sample_lib true "")
                    "https://example.com/files/Doc.PDF" "/files/Doc.PDF" st0
                    eq_refl)).
    reflexivity.
  - apply (proj2 (is_pdf_url_suffix_or_probe (sample_lib true "")
                    page_url "/article" st0 eq_refl)
             ConnectionError "Connection refused"); reflexivity.
Defined.

(** C7: for any GET response that [raise_for_status] lets through (status
    outside 400-599), when the static body text (already free of surrounding
    whitespace, being [get_text(strip=True)] output) is shorter than 200
    characters, [extract_web_text] continues exactly as one call of
    [_render_js_page] on the same URL and returns what it returns; when it
    is 200 characters or more, the static (title, body) is returned and no
    rendering happens (the only effect is the GET). *)
Theorem extract_web_text_render_fallback (L : Lib) (url : string)
  (resp : response) (st : state) :
  http_get L url = Ok resp ->
  ((400 <=? status_code resp) && (status_code resp <? 600)) = false ->
  let s := html_soup L (text resp) removed_tags in
  let st1 := {| st_log := st_log st ++ [EvGet url]; st_stdin := st_stdin st |} in
  (String.length (soup_text s) < _MIN_CONTENT_LENGTH ->
     extract_web_text L url st
     = _render_js_page L url
         {| st_log := st_log st1 ++ [EvPrint MStaticTooShort];
            st_stdin := st_stdin st |})
  /\ (_MIN_CONTENT_LENGTH <= String.length (soup_text s) ->
     extract_web_text L url st = (st1, inr (soup_title s, soup_text s))).
Proof.
  intros Hget Hst s st1.
  unfold extract_web_text, requests_get, bind, emit, lift. rewrite Hget.
  unfold ret, raise_for_status. rewrite Hst.
  unfold _parse_html_response. cbv beta iota zeta delta [ret]. fold s.
  rewrite soup_text_stripped.
  destruct (Nat.leb_spec _MIN_CONTENT_LENGTH (String.length (soup_text s))) as [Hc|Hc];
    split; intros H; try lia; reflexivity.
Qed.

Lemma extract_web_text_render_fallback_witness :
  extract_web_text (sample_lib true "") spa_url st0
  = _render_js_page (sample_lib true "") spa_url
      {| st_log := [EvGet spa_url; EvPrint MStaticTooShort]; st_stdin := [] |}
  /\ extract_web_text (sample_lib true "") page_url st0
  = ({| st_log := [EvGet page_url]; st_stdin := [] |},
     inr ("A Title", py_strip long_text)).
Proof.
  split.
  - apply (proj1 (extract_web_text_render_fallback (sample_lib true "") spa_url
                    (html_response spa_url) st0 eq_refl eq_refl)).
    vm_compute. lia.
  - rewrite (proj2 (extract_web_text_render_fallback (sample_lib true "") page_url
                      (html_response page_url) st0 eq_refl eq_refl)
               ltac:(vm_compute; lia)).
    vm_compute. reflexivity.
Defined.

(** ** OCR cleanup *)

Example clean_ocr_text_removes_artifacts :
  clean_ocr_text
    (lines_text ["METHODOLOGY CrossFit Kids Training Guide | CrossFit"; "Squat";
                 "CrossFit Kids Training Guide | 3 of 10"; "1.2-3ab"; "";
                 "Movements, continued"; "Keep the chest up.";
                 String left_guillemet "CrossFit"])
  = lines_text ["Squat"; ""; ""; "Keep the chest up."].
Proof. vm_compute. reflexivity. Qed.

Lemma sub_fuel_no_match (fuel : nat) (r : regex) (repl : list ascii)
  (prev : option ascii) (s : list ascii) :
  no_match_from r prev s = true -> sub_fuel fuel r repl prev s = s.
Proof.
  revert prev s; induction fuel as [|f IH]; intros prev s H; [reflexivity|].
  destruct s as [|c s'].
  - simpl. destruct (mt r prev [] kfin) as [[pv rest]|]; reflexivity.
  - simpl in H. apply andb_prop in H as [Hn Hrest].
    unfold nonempty_match in Hn. simpl.
    destruct (mt r prev (c :: s') kfin) as [[pv rest]|]; simpl in Hn.
    + destruct (List.length rest <? S (List.length s')); [discriminate|].
      now rewrite (IH _ _ Hrest).
    + now rewrite (IH _ _ Hrest).
Qed.

Lemma re_sub_no_match (r : regex) (repl text : string) :
  no_match r text = true -> re_sub r repl text = text.
Proof.
  intros H. unfold re_sub. rewrite sub_fuel_no_match by exact H.
  apply string_of_list_ascii_of_string.
Qed.

(** C4 (as stated): [clean] is not idempotent.  The final strip exposes a
    version stamp to the anchored [VERSION_RE], which the second pass
    removes. *)
Lemma clean_ocr_text_not_idempotent :
  clean_ocr_text " 1.0-11" = "1.0-11"
  /\ clean_ocr_text (clean_ocr_text " 1.0-11") = "".
Proof. split; vm_compute; reflexivity. Qed.

(** C4 (amended): [clean] returns unchanged any text without leading or
    trailing whitespace in which none of its patterns (the seven artifact
    patterns and [\n{4,}]) matches. *)
Theorem clean_ocr_text_fixpoint (y : string) :
  artifact_free y = true -> hd_ok y = true -> hd_ok (srev y) = true ->
  clean_ocr_text y = y.
Proof.
  intros Hfree H1 H2. unfold artifact_free in Hfree.
  repeat rewrite andb_true_iff in Hfree.
  destruct Hfree as [[[[[[[Hh Hf] Hc] Hv] Hl] Hp] Hk] Hb].
  unfold clean_ocr_text.
  rewrite (re_sub_no_match _ _ _ Hh), (re_sub_no_match _ _ _ Hf),
    (re_sub_no_match _ _ _ Hc), (re_sub_no_match _ _ _ Hv),
    (re_sub_no_match _ _ _ Hl), (re_sub_no_match _ _ _ Hp),
    (re_sub_no_match _ _ _ Hk), (re_sub_no_match _ _ _ Hb).
  now apply py_strip_id.
Qed.

Lemma clean_ocr_text_fixpoint_witness :
  clean_ocr_text (lines_text ["Squat"; ""; "Keep the chest up."])
  = lines_text ["Squat"; ""; "Keep the chest up."].
Proof.
  apply clean_ocr_text_fixpoint; vm_compute; reflexivity.
Defined.

(** ** Section segmentation (ingest_kids.py) *)

(** C8: on a 20-line document the boundaries (1,10) and (11,20) give two
    raw slices, lines 1-10 and lines 11-20, which together are the whole
    document, each line once. *)
Theorem raw_slices_partition (lines : list string) (s1 s2 : section) :
  List.length lines = 20 ->
  start_line s1 = 1%Z -> end_line s1 = 10%Z ->
  start_line s2 = 11%Z -> end_line s2 = 20%Z ->
  map (raw_slice lines) [s1; s2] = [firstn 10 lines; skipn 10 lines]
  /\ (firstn 10 lines ++ skipn 10 lines)%list = lines
  /\ List.length (firstn 10 lines) = 10 /\ List.length (skipn 10 lines) = 10.
Proof.
  intros Hn H1 H2 H3 H4.
  assert (Hs : List.length (skipn 10 lines) = 10) by (rewrite length_skipn; lia).
  split; [|split; [apply firstn_skipn | split; [rewrite length_firstn; lia | exact Hs]]].
  cbn [map]. unfold raw_slice, py_slice. rewrite H1, H2, H3, H4, Hn.
  cbn -[firstn skipn]. f_equal. f_equal.
  apply firstn_all2. lia.
Qed.

Lemma raw_slices_partition_witness :
  map (raw_slice (map (fun n => String (ascii_of_nat (65 + n)) (String nl EmptyString))
                      (seq 0 20)))
      [mk_section "First" 1 10 None None None; mk_section "Second" 11 20 None None None]
  = [firstn 10 (map (fun n => String (ascii_of_nat (65 + n)) (String nl EmptyString))
                    (seq 0 20));
     skipn 10 (map (fun n => String (ascii_of_nat (65 + n)) (String nl EmptyString))
                   (seq 0 20))].
Proof.
  apply (raw_slices_partition _ (mk_section "First" 1 10 None None None)
           (mk_section "Second" 11 20 None None None)); reflexivity.
Defined.

(** C9: a section whose cleaned text is empty after trimming only prints
    the skip message: nothing is raised, nothing is posted, the counters
    are unchanged and the loop goes on with the remaining sections. *)
Theorem kids_loop_skips_empty_section (L : Lib) (endpoint secret : string)
  (dry_run : bool) (lines : list string) (sec : section) (rest : list section)
  (success errors : nat) (st : state) :
  truthy (py_strip (clean_ocr_text (raw_text lines sec))) = false ->
  kids_loop L endpoint secret dry_run lines (sec :: rest) success errors st
  = kids_loop L endpoint secret dry_run lines rest success errors
      {| st_log := st_log st ++ [EvPrint (MSkipEmpty (sec_title sec))];
         st_stdin := st_stdin st |}.
Proof.
  intros H. cbn [kids_loop]. rewrite H. reflexivity.
Qed.

Lemma kids_loop_skips_empty_section_witness :
  kids_loop (sample_lib true "") "e" "s" false
    [String "C" (String "r" (String "o" (String "s" (String "s" (String "F"
       (String "i" (String "t" (String nl EmptyString))))))));
     "Squat" ++ String nl EmptyString]
    [mk_section "Logo only" 1 1 None None None] 0 0 st0
  = ({| st_log := [EvPrint (MSkipEmpty "Logo only")]; st_stdin := [] |},
     inr (0, 0)).
Proof.
  rewrite kids_loop_skips_empty_section by (vm_compute; reflexivity).
  reflexivity.
Defined.

(** ** The title of the submitted payload (ingest.py) *)

Lemma prompt_metadata_title (auto_title : string) (st st' : state) (m : metadata) :
  prompt_metadata auto_title st = (st', inr m) ->
  exists ans rest, st_stdin st = ans :: rest
    /\ m_title m = (if truthy (py_strip ans) then py_strip ans else auto_title).
Proof.
  unfold prompt_metadata, bind, print, emit, input, ret. cbn [st_stdin].
  destruct (st_stdin st) as [|t l]; [discriminate|].
  destruct l as [|a [|c [|d [|e l]]]]; try discriminate.
  intros H. injection H as _ <-. exists t, (a :: c :: d :: e :: l). split; reflexivity.
Qed.

(** The interactive branch of [process_one]: [prompt_metadata], then the
    [source_url] fix-up, which leaves the title alone. *)
Lemma prompt_branch_title (auto_title : string) (auto_source_url : option string)
  (st st' : state) (m : metadata) :
  (m0 <- prompt_metadata auto_title ;;
   (if negb (opt_truthy (m_source_url m0)) && opt_truthy auto_source_url
    then ret {| m_title := m_title m0; m_author := m_author m0;
                m_category := m_category m0; m_source := m_source m0;
                m_source_url := auto_source_url |}
    else ret m0)) st = (st', inr m) ->
  exists ans rest, st_stdin st = ans :: rest
    /\ m_title m = (if truthy (py_strip ans) then py_strip ans else auto_title).
Proof.
  unfold bind at 1.
  destruct (prompt_metadata auto_title st) as [st2 [e|m0]] eqn:Hm; [discriminate|].
  apply prompt_metadata_title in Hm.
  destruct (_ && _); unfold ret; intros H; injection H as _ <-; exact Hm.
Qed.

(** C2, counterexample: in batch mode with no [--title], a web page with no
    <title> element and a long body is submitted with the title [""]. *)
Lemma process_one_empty_title_counterexample :
  exists p, In (EvPost "e" "s" p)
              (st_log (fst (process_one (sample_lib true "x") untitled_url
                 {| a_title := None; a_author := None; a_category := None;
                    a_source := None; a_source_url := None; a_batch := true |}
                 "e" "s" st0)))
         /\ dict_get "title" p = Some (JStr "").
Proof.
  eexists. split.
  - vm_compute. repeat (first [left; reflexivity | right]).
  - reflexivity.
Qed.

(** C2 (amended): the payload's title is the [--title] override when one is
    given and non-empty; otherwise it is the auto-detected title in batch
    mode, and in interactive mode the stripped answer to the title prompt
    (the first line read from stdin) or, when that is empty, the
    auto-detected title. So the title is non-empty whenever the override or
    the auto-detected title is. *)
Theorem payload_title_nonempty (args : cli_args) (auto_title : string)
  (auto_source_url : option string) (content : string) (st st' : state)
  (m : metadata) :
  assemble_metadata args auto_title auto_source_url st = (st', inr m) ->
  dict_get "title" (payload_of m content) = Some (JStr (m_title m))
  /\ (forall t, a_title args = Some t -> truthy t = true -> m_title m = t)
  /\ (opt_truthy (a_title args) = false -> a_batch args = true ->
        m_title m = auto_title)
  /\ (opt_truthy (a_title args) = false -> a_batch args = false ->
        exists ans rest, st_stdin st = ans :: rest
          /\ m_title m = (if truthy (py_strip ans) then py_strip ans else auto_title))
  /\ (opt_truthy (a_title args) = true \/ truthy auto_title = true ->
        truthy (m_title m) = true).
Proof.
  intros H.
  assert (Hint : forall ans,
            opt_truthy (a_title args) = true \/ truthy auto_title = true ->
            opt_truthy (a_title args) = false ->
            truthy (if truthy (py_strip ans) then py_strip ans else auto_title) = true).
  { intros ans [Ho|Ha] Hf; [congruence|].
    destruct (truthy (py_strip ans)) eqn:E; assumption. }
  split; [reflexivity|].
  unfold assemble_metadata in H.
  destruct (a_title args) as [t|] eqn:Ea; cbn [opt_truthy].
  - destruct (truthy t) eqn:Et.
    + unfold ret in H. injection H as _ <-. cbn [m_title].
      split; [intros t' E _; congruence|].
      split; [discriminate|]. split; [discriminate|]. intros _; exact Et.
    + split; [intros t' E Ht'; injection E as <-; congruence|].
      destruct (a_batch args) eqn:Eb.
      * unfold ret in H. injection H as _ <-. cbn [m_title].
        split; [reflexivity|]. split; [discriminate|].
        intros [Ho|Ha]; [congruence|exact Ha].
      * apply prompt_branch_title in H. destruct H as (ans & rest & Hs & Ht).
        split; [discriminate|]. split; [intros _ _; exists ans, rest; split; assumption|].
        intros Hne. rewrite Ht.
        apply Hint; cbn [opt_truthy]; rewrite ?Et; [exact Hne | reflexivity].
  - split; [discriminate|].
    destruct (a_batch args) eqn:Eb.
    + unfold ret in H. injection H as _ <-. cbn [m_title].
      split; [reflexivity|]. split; [discriminate|].
      intros [Ho|Ha]; [discriminate|exact Ha].
    + apply prompt_branch_title in H. destruct H as (ans & rest & Hs & Ht).
      split; [discriminate|]. split; [intros _ _; exists ans, rest; split; assumption|].
      intros Hne. rewrite Ht. apply Hint; [exact Hne | reflexivity].
Qed.

(** Interactive mode, no [--title], the user accepts the detected title by
    entering an empty line. *)
Lemma payload_title_nonempty_witness :
  exists st' m,
    assemble_metadata
      {| a_title := None; a_author := None; a_category := None;
         a_source := None; a_source_url := None; a_batch := false |}
      "Squat Basics" (Some "https://example.com/article")
      {| st_log := []; st_stdin := [""; "Coach"; ""; ""; ""] |} = (st', inr m)
    /\ m_title m = "Squat Basics" /\ truthy (m_title m) = true.
Proof.
  eexists _, _.
  match goal with |- ?a = ?b /\ _ => assert (E : a = b) by (cbv; reflexivity) end.
  split; [exact E|].
  destruct (payload_title_nonempty _ _ _ "Keep the chest up." _ _ _ E)
    as (_ & _ & _ & Hi & Hn).
  split.
  - destruct (Hi eq_refl eq_refl) as (ans & rest & Hs & Ht).
    rewrite Ht. cbn in Hs. injection Hs as <- _. reflexivity.
  - apply Hn. right. reflexivity.
Defined.

(** ** Computations that print no report line and never exit *)

Lemma quiet_app (l1 l2 : list event) :
  quiet (l1 ++ l2) = quiet l1 && quiet l2.
Proof. unfold quiet. apply forallb_app. Qed.

Lemma tame_ret {A} (a : A) : tame (ret a).
Proof.
  intros st st' r H. injection H as <- <-. split; [|exact I].
  exists []. split; [symmetry; apply app_nil_r | reflexivity].
Qed.

Lemma tame_raise {A} (k : exc_kind) (msg : string) :
  tame (A := A) (raise (PyException k msg)).
Proof.
  intros st st' r H. injection H as <- <-. split; [|reflexivity].
  exists []. split; [symmetry; apply app_nil_r | reflexivity].
Qed.

Lemma tame_lift {A} (r : result A) : tame (lift r).
Proof. destruct r; [apply tame_ret | apply tame_raise]. Qed.

Lemma tame_emit (ev : event) : is_report ev = false -> tame (emit ev).
Proof.
  intros Hr st st' r H. injection H as <- <-. split; [|exact I].
  exists [ev]. split; [reflexivity|]. cbn. now rewrite Hr.
Qed.

Lemma tame_print (m : message) : is_report (EvPrint m) = false -> tame (print m).
Proof. apply tame_emit. Qed.

Lemma tame_bind {A B} (m : PyM A) (f : A -> PyM B) :
  tame m -> (forall a, tame (f a)) -> tame (bind m f).
Proof.
  intros Hm Hf st st' r H. unfold bind in H.
  destruct (m st) as [st1 [e|a]] eqn:E.
  - injection H as <- <-. exact (Hm _ _ _ E).
  - destruct (Hm _ _ _ E) as [[t1 [H1 Q1]] _].
    destruct (Hf a _ _ _ H) as [[t2 [H2 Q2]] Hr]. split; [|exact Hr].
    exists (t1 ++ t2)%list. rewrite H2, H1, app_assoc. split; [reflexivity|].
    now rewrite quiet_app, Q1, Q2.
Qed.

Lemma tame_try_except {A} (m : PyM A) (c : exc -> bool) (h : exc -> PyM A) :
  tame m -> (forall e, tame (h e)) -> tame (try_except m c h).
Proof.
  intros Hm Hh st st' r H. unfold try_except in H.
  destruct (m st) as [st1 [e|a]] eqn:E.
  - destruct (Hm _ _ _ E) as [[t1 [H1 Q1]] He].
    destruct (c e).
    + destruct (Hh e _ _ _ H) as [[t2 [H2 Q2]] Hr]. split; [|exact Hr].
      exists (t1 ++ t2)%list. rewrite H2, H1, app_assoc. split; [reflexivity|].
      now rewrite quiet_app, Q1, Q2.
    + injection H as <- <-. split; [exists t1; now split | exact He].
  - injection H as <- <-. exact (Hm _ _ _ E).
Qed.

Create HintDb tame.

Ltac tame_step :=
  match goal with
  | |- tame _ => solve [eauto with tame]
  | |- tame (bind _ _) => apply tame_bind; [|intros ?]
  | |- tame (try_except _ _ _) => apply tame_try_except; [|intros ?]
  | |- tame (ret _) => apply tame_ret
  | |- tame (raise (PyException _ _)) => apply tame_raise
  | |- tame (lift _) => apply tame_lift
  | |- tame (emit _) => apply tame_emit; reflexivity
  | |- tame (print _) => apply tame_print; reflexivity
  | |- tame (if ?b then _ else _) => destruct b
  | |- tame (match ?x with _ => _ end) => destruct x
  end.

Ltac tame_tac := repeat tame_step.

Lemma tame_normalize_url (u : string) : tame (normalize_url u).
Proof. unfold normalize_url. tame_tac. Qed.
#[local] Hint Resolve tame_normalize_url : tame.

Lemma tame_requests_get (L : Lib) (u : string) : tame (requests_get L u).
Proof. unfold requests_get. tame_tac. Qed.
#[local] Hint Resolve tame_requests_get : tame.

Lemma tame_raise_for_status (r : response) : tame (raise_for_status r).
Proof. unfold raise_for_status. tame_tac. Qed.
#[local] Hint Resolve tame_raise_for_status : tame.

Lemma tame_parse_html_response (L : Lib) (r : response) :
  tame (_parse_html_response L r).
Proof. unfold _parse_html_response. tame_tac. Qed.
#[local] Hint Resolve tame_parse_html_response : tame.

Lemma tame_is_pdf_url (L : Lib) (u : string) : tame (is_pdf_url L u).
Proof. unfold is_pdf_url, requests_head. tame_tac. Qed.
#[local] Hint Resolve tame_is_pdf_url : tame.

Lemma tame_render_js_page (L : Lib) (u : string) :
  playwright_installed L = true -> tame (_render_js_page L u).
Proof. intros Hp. unfold _render_js_page. rewrite Hp. cbn [negb]. tame_tac. Qed.
#[local] Hint Resolve tame_render_js_page : tame.

Lemma tame_extract_web_text (L : Lib) (u : string) :
  playwright_installed L = true -> tame (extract_web_text L u).
Proof. intros Hp. unfold extract_web_text. tame_tac. Qed.
#[local] Hint Resolve tame_extract_web_text : tame.

Lemma tame_download_pdf (L : Lib) (u : string) : tame (download_pdf L u).
Proof. unfold download_pdf. tame_tac. Qed.
#[local] Hint Resolve tame_download_pdf : tame.

Lemma tame_send_to_ingest (L : Lib) (ep secret : string) (p : payload) :
  tame (send_to_ingest L ep secret p).
Proof. unfold send_to_ingest. tame_tac. Qed.
#[local] Hint Resolve tame_send_to_ingest : tame.

Lemma tame_result_fields (j : json) : tame (result_fields j).
Proof. unfold result_fields. tame_tac. Qed.
#[local] Hint Resolve tame_result_fields : tame.

Lemma tame_batch_try_body (L : Lib) (ep secret : string) (a : article) :
  playwright_installed L = true -> tame (batch_try_body L ep secret a).
Proof. intros Hp. unfold batch_try_body. tame_tac. Qed.

Lemma bind_inr {A B} (m : PyM A) (f : A -> PyM B) (st st' : state) (b : B) :
  bind m f st = (st', inr b) -> exists st1 a, m st = (st1, inr a) /\ f a st1 = (st', inr b).
Proof.
  unfold bind. destruct (m st) as [st1 [e|a]]; [discriminate|]. eauto.
Qed.

Lemma bind_ret_step {A B} (m : PyM A) (f : A -> PyM B) (st st1 : state) (a : A) :
  m st = (st1, inr a) -> bind m f st = f a st1.
Proof. intros H. unfold bind. now rewrite H. Qed.

(** With Playwright available, the [try] of every batch item ends: every
    exception the body raises is an [Exception] and is caught. *)
Lemma batch_item_try_completes (L : Lib) (ep secret : string) (a : article) :
  playwright_installed L = true -> item_completes L ep secret a.
Proof.
  intros Hp st. unfold batch_item_try, try_except.
  assert (T : tame (o <- batch_try_body L ep secret a ;; ret (@inr exc _ o))).
  { apply tame_bind; [apply tame_batch_try_body; exact Hp | intros; apply tame_ret]. }
  destruct ((o <- batch_try_body L ep secret a ;; ret (@inr exc _ o)) st)
    as [st1 [e|o]] eqn:E.
  - destruct (T _ _ _ E) as [[t1 [H1 Q1]] He]. rewrite He.
    eexists _, _, (t1 ++ [EvPrint (MError (exc_str e))])%list. split; [reflexivity|].
    cbn. rewrite H1, app_assoc. split; [reflexivity|].
    now rewrite quiet_app, Q1.
  - destruct (T _ _ _ E) as [[t1 [H1 Q1]] _]. now exists st1, o, t1.
Qed.

(** An item whose submission always fails is never counted as ingested. *)
Lemma batch_try_body_not_ingested (L : Lib) (ep secret : string) (a : article) :
  (forall content st, exists st' e,
     send_to_ingest L ep secret (batch_payload a content) st = (st', inl e)) ->
  forall st st', batch_try_body L ep secret a st <> (st', inr Ingested).
Proof.
  intros Hk st st' H. unfold batch_try_body in H.
  apply bind_inr in H as (s1 & t & _ & H).
  apply bind_inr in H as (s2 & pdf & _ & H).
  apply bind_inr in H as (s3 & [ti c] & _ & H). cbv beta iota in H.
  destruct (negb _).
  - apply bind_inr in H as (s4 & _ & _ & H). unfold ret in H. congruence.
  - apply bind_inr in H as (s4 & _ & _ & H).
    apply bind_inr in H as (s5 & r & Hs & _).
    destruct (Hk c s4) as (s5' & e & He). congruence.
Qed.

Lemma batch_item_try_not_ingested (L : Lib) (ep secret : string) (a : article) :
  (forall content st, exists st' e,
     send_to_ingest L ep secret (batch_payload a content) st = (st', inl e)) ->
  forall st st' o, batch_item_try L ep secret a st = (st', inr o) -> o <> inr Ingested.
Proof.
  intros Hk st st' o H Ho. subst o. unfold batch_item_try, try_except, bind in H.
  destruct (batch_try_body L ep secret a st) as [s1 [e|o]] eqn:E.
  - destruct (is_Exception e); [|discriminate].
    unfold bind, print, emit, ret in H. discriminate.
  - unfold ret in H. injection H as _ ->.
    exact (batch_try_body_not_ingested L ep secret a Hk st s1 E).
Qed.

Lemma item_headers_app (l1 l2 : list event) :
  item_headers (l1 ++ l2) = (item_headers l1 ++ item_headers l2)%list.
Proof.
  induction l1 as [|ev l1 IH]; [reflexivity|].
  destruct ev as [m| | | | |]; try destruct m; cbn; rewrite ?IH; reflexivity.
Qed.

Lemma failure_titles_app (l1 l2 : list event) :
  failure_titles (l1 ++ l2) = (failure_titles l1 ++ failure_titles l2)%list.
Proof.
  induction l1 as [|ev l1 IH]; [reflexivity|].
  destruct ev as [m| | | | |]; try destruct m; cbn; rewrite ?IH; reflexivity.
Qed.

Lemma summaries_app (l1 l2 : list event) :
  summaries (l1 ++ l2) = (summaries l1 ++ summaries l2)%list.
Proof.
  induction l1 as [|ev l1 IH]; [reflexivity|].
  destruct ev as [m| | | | |]; try destruct m; cbn; rewrite ?IH; reflexivity.
Qed.

Lemma quiet_no_report (l : list event) :
  quiet l = true ->
  item_headers l = [] /\ failure_titles l = [] /\ summaries l = [].
Proof.
  induction l as [|ev l IH]; [auto|]. intros Q.
  unfold quiet in Q. cbn in Q. apply andb_prop in Q as [Q1 Q2].
  destruct ev as [m| | | | |]; try destruct m; cbn in Q1 |- *;
    try discriminate; exact (IH Q2).
Qed.

Lemma subseq_In {A} (l l' : list A) (x : A) : subseq l l' -> In x l -> In x l'.
Proof.
  induction 1; cbn; [tauto | intuition | intuition].
Qed.

Lemma subseq_NoDup {A} (l l' : list A) : subseq l l' -> NoDup l' -> NoDup l.
Proof.
  induction 1; intros Hn; [constructor | |].
  - inversion Hn; subst. constructor; [|auto].
    intros Hx. apply H2. eapply subseq_In; eassumption.
  - inversion Hn; subst. auto.
Qed.

(** When every item's [try] ends, the loop visits the items in order, one
    header each, and adds at most one failure per item, in item order;
    an item never counted as ingested adds one. *)
Lemma batch_loop_completes (L : Lib) (ep secret : string) (n : nat)
  (items : list article) :
  (forall a, In a items -> item_completes L ep secret a) ->
  forall i s f st, exists st' s' extra tail,
    batch_loop L ep secret n i items s f st = (st', inr (s', (f ++ extra)%list))
    /\ st_log st' = (st_log st ++ tail)%list
    /\ item_headers tail = combine (seq i (List.length items)) (map art_title items)
    /\ failure_titles tail = [] /\ summaries tail = []
    /\ subseq (map fst extra) (map art_title items)
    /\ (forall a, In a items ->
          (forall st1 st2 o, batch_item_try L ep secret a st1 = (st2, inr o) ->
                             o <> inr Ingested) ->
          In (art_title a) (map fst extra)).
Proof.
  induction items as [|a rest IH]; intros Hall i s f st.
  - exists st, s, [], []. cbn. rewrite !app_nil_r.
    repeat split; [constructor | intros _ []].
  - assert (Hrest : forall b, In b rest -> item_completes L ep secret b)
      by (intros b Hb; apply Hall; now right).
    cbn [batch_loop]. unfold bind at 1 2, print at 1 2, emit at 1 2.
    match goal with |- context [bind (batch_item_try L ep secret a) _ ?s0] =>
      destruct (Hall a (or_introl eq_refl) s0) as (st1 & o & t1 & Ht & H1 & Q1);
      rewrite (bind_ret_step _ _ _ _ _ Ht) end.
    destruct (quiet_no_report t1 Q1) as (I1 & F1 & S1).
    set (hd := [EvPrint (MItem i n (art_title a)); EvPrint (MUrl (art_url a))]).
    destruct o as [e|[|]].
    + (* caught exception: sleep, then a failure entry *)
      unfold bind, emit.
      destruct (IH Hrest (S i) s (f ++ [(art_title a, exc_str e)])%list
                  {| st_log := st_log st1 ++ [EvSleep 1]; st_stdin := st_stdin st1 |})
        as (st2 & s' & extra & tail & Hl & H2 & I2 & F2 & S2 & Sub & Hin).
      exists st2, s', ((art_title a, exc_str e) :: extra),
             (hd ++ t1 ++ [EvSleep 1] ++ tail)%list.
      rewrite Hl, <- app_assoc. split; [reflexivity|].
      split; [rewrite H2; cbn; rewrite H1; cbn; now rewrite <- !app_assoc|].
      rewrite !item_headers_app, !failure_titles_app, !summaries_app, I1, F1, S1, I2, F2, S2.
      repeat split; [constructor; exact Sub|].
      intros b [<-|Hb] Hno; [now left | right; exact (Hin b Hb Hno)].
    + (* no text: a failure entry, no sleep *)
      destruct (IH Hrest (S i) s (f ++ [(art_title a, "No text extracted")])%list st1)
        as (st2 & s' & extra & tail & Hl & H2 & I2 & F2 & S2 & Sub & Hin).
      exists st2, s', ((art_title a, "No text extracted") :: extra),
             (hd ++ t1 ++ tail)%list.
      rewrite Hl, <- app_assoc. split; [reflexivity|].
      split; [rewrite H2, H1; cbn; now rewrite <- !app_assoc|].
      rewrite !item_headers_app, !failure_titles_app, !summaries_app, I1, F1, S1, I2, F2, S2.
      repeat split; [constructor; exact Sub|].
      intros b [<-|Hb] Hno; [now left | right; exact (Hin b Hb Hno)].
    + (* ingested: sleep, no failure entry *)
      unfold bind, emit.
      destruct (IH Hrest (S i) (S s) f
                  {| st_log := st_log st1 ++ [EvSleep 1]; st_stdin := st_stdin st1 |})
        as (st2 & s' & extra & tail & Hl & H2 & I2 & F2 & S2 & Sub & Hin).
      exists st2, s', extra, (hd ++ t1 ++ [EvSleep 1] ++ tail)%list.
      rewrite Hl. split; [reflexivity|].
      split; [rewrite H2; cbn; rewrite H1; cbn; now rewrite <- !app_assoc|].
      rewrite !item_headers_app, !failure_titles_app, !summaries_app, I1, F1, S1, I2, F2, S2.
      repeat split; [constructor; exact Sub|].
      intros b [<-|Hb] Hno.
      * exfalso. exact (Hno _ _ _ Ht eq_refl).
      * exact (Hin b Hb Hno).
Qed.

Lemma print_failures_log (failed : list (string * string)) (st : state) :
  print_failures failed st
  = ({| st_log := (st_log st ++ map (fun p => EvPrint (MFailedEntry (fst p) (snd p))) failed)%list;
        st_stdin := st_stdin st |}, inr tt).
Proof.
  revert st. induction failed as [|[t err] rest IH]; intros st.
  - destruct st as [l i]. unfold print_failures, ret. cbn. now rewrite app_nil_r.
  - cbn [print_failures]. unfold bind at 1, print, emit. rewrite IH. cbn.
    now rewrite <- app_assoc.
Qed.

Lemma failure_titles_entries (failed : list (string * string)) :
  failure_titles (map (fun p => EvPrint (MFailedEntry (fst p) (snd p))) failed)
  = map fst failed.
Proof. induction failed as [|p rest IH]; cbn; [reflexivity | now rewrite IH]. Qed.

Lemma item_headers_entries (failed : list (string * string)) :
  item_headers (map (fun p => EvPrint (MFailedEntry (fst p) (snd p))) failed) = []
  /\ summaries (map (fun p => EvPrint (MFailedEntry (fst p) (snd p))) failed) = [].
Proof. induction failed as [|p rest IH]; cbn; auto. Qed.

(** C10 (amended): with Playwright available and a non-empty secret, a
    batch run over items with distinct titles in which item [k]'s
    submission always fails completes: every item gets its header exactly
    once, in order, the summary is printed, and the failure list names
    item [k] exactly once. *)
Theorem batch_run_failing_item_reported (L : Lib) (ep secret : string)
  (items : list article) (k : article) (st : state) :
  playwright_installed L = true -> truthy secret = true ->
  NoDup (map art_title items) -> In k items ->
  (forall content st0, exists st1 e,
     send_to_ingest L ep secret (batch_payload k content) st0 = (st1, inl e)) ->
  exists st' tail,
    batch_run L ep secret items st = (st', inr tt)
    /\ st_log st' = (st_log st ++ tail)%list
    /\ item_headers tail = combine (seq 1 (List.length items)) (map art_title items)
    /\ (exists succeeded, summaries tail = [(succeeded, List.length items)])
    /\ count_occ string_dec (failure_titles tail) (art_title k) = 1.
Proof.
  intros Hp Hs Hnd Hk Hsend.
  destruct (batch_loop_completes L ep secret (List.length items) items
              (fun a _ => batch_item_try_completes L ep secret a Hp) 1 0 []
              {| st_log := (st_log st ++ [EvPrint (MBatchStart (List.length items))])%list;
                 st_stdin := st_stdin st |})
    as (st1 & s' & extra & tail & Hl & H1 & I1 & F1 & S1 & Sub & Hin).
  assert (Hk' : In (art_title k) (map fst extra)).
  { apply Hin; [exact Hk|]. apply batch_item_try_not_ingested. exact Hsend. }
  unfold batch_run. rewrite Hs. cbn [negb].
  unfold bind at 1, print at 1, emit at 1. rewrite (bind_ret_step _ _ _ _ _ Hl).
  cbn [app]. destruct extra as [|x xs]; [contradiction|].
  unfold bind, print, emit. rewrite print_failures_log.
  destruct (item_headers_entries (x :: xs)) as [IE SE].
  eexists _, ([EvPrint (MBatchStart (List.length items))] ++ tail
              ++ [EvPrint (MSummary s' (List.length items));
                  EvPrint (MFailedCount (List.length (x :: xs)))]
              ++ map (fun p => EvPrint (MFailedEntry (fst p) (snd p))) (x :: xs))%list.
  split; [reflexivity|].
  split; [cbn [st_log]; rewrite H1; cbn [st_log]; now rewrite <- !app_assoc|].
  rewrite !item_headers_app, !summaries_app, !failure_titles_app, I1, S1, F1, IE, SE,
          failure_titles_entries.
  split; [cbn; now rewrite app_nil_r|].
  split; [exists s'; reflexivity|].
  cbn [app failure_titles].
  apply (NoDup_count_occ' string_dec).
  - eapply subseq_NoDup; eassumption.
  - exact Hk'.
Qed.

Lemma bind_inl_step {A B} (m : PyM A) (f : A -> PyM B) (st st1 : state) (e : exc) :
  m st = (st1, inl e) -> bind m f st = (st1, inl e).
Proof. intros H. unfold bind. now rewrite H. Qed.

Lemma bind_print_step {B} (msg : message) (f : unit -> PyM B) (st : state) :
  bind (print msg) f st
  = f tt {| st_log := (st_log st ++ [EvPrint msg])%list; st_stdin := st_stdin st |}.
Proof. reflexivity. Qed.

Lemma batch_loop_cons (L : Lib) (ep secret : string) (n i : nat) (a : article)
  (rest : list article) (s : nat) (f : list (string * string)) (st : state) :
  batch_loop L ep secret n i (a :: rest) s f st
  = let st0 := {| st_log := ((st_log st ++ [EvPrint (MItem i n (art_title a))])
                               ++ [EvPrint (MUrl (art_url a))])%list;
                  st_stdin := st_stdin st |} in
    match batch_item_try L ep secret a st0 with
    | (st1, inl e) => (st1, inl e)
    | (st1, inr (inl e)) =>
        batch_loop L ep secret n (S i) rest s (f ++ [(art_title a, exc_str e)])%list
          {| st_log := (st_log st1 ++ [EvSleep 1])%list; st_stdin := st_stdin st1 |}
    | (st1, inr (inr NoText)) =>
        batch_loop L ep secret n (S i) rest s
          (f ++ [(art_title a, "No text extracted")])%list st1
    | (st1, inr (inr Ingested)) =>
        batch_loop L ep secret n (S i) rest (S s) f
          {| st_log := (st_log st1 ++ [EvSleep 1])%list; st_stdin := st_stdin st1 |}
    end.
Proof.
  cbn [batch_loop]. rewrite !bind_print_step. cbn [st_log st_stdin].
  cbv zeta. unfold bind, emit.
  match goal with |- context [batch_item_try L ep secret a ?s0] =>
    destruct (batch_item_try L ep secret a s0) as [st1 [e|[e|[|]]]] end; reflexivity.
Qed.

Lemma batch_loop_app (L : Lib) (ep secret : string) (n : nat) (l1 l2 : list article) :
  forall i s f st,
  batch_loop L ep secret n i (l1 ++ l2) s f st
  = match batch_loop L ep secret n i l1 s f st with
    | (st', inr (s', f')) => batch_loop L ep secret n (i + List.length l1) l2 s' f' st'
    | (st', inl e) => (st', inl e)
    end.
Proof.
  induction l1 as [|a l1 IH]; intros i s f st.
  - cbn. now rewrite Nat.add_0_r.
  - rewrite <- app_comm_cons, !batch_loop_cons. cbv zeta.
    destruct (batch_item_try L ep secret a _) as [st1 [e|[e|[|]]]];
      [reflexivity| | |]; rewrite IH; cbn [List.length];
      now rewrite <- Nat.add_succ_comm.
Qed.

Lemma is_pdf_url_not_pdf (L : Lib) (u : string) (st : state) :
  needs_rendering L u -> exists st', is_pdf_url L u st = (st', inr false).
Proof.
  intros [(path & Hpath & Hsuf) [Hhead _]].
  unfold is_pdf_url, requests_head, lift. unfold bind at 1. rewrite Hpath.
  unfold ret at 1. cbv beta iota. rewrite Hsuf.
  unfold try_except, bind, emit.
  destruct (http_head L u) as [ct|k msg].
  - unfold ret. rewrite Hhead. eauto.
  - unfold raise. cbn [is_RequestException]. rewrite Hhead. unfold ret. eauto.
Qed.

Lemma extract_web_text_exits (L : Lib) (u : string) (st : state) :
  playwright_installed L = false -> needs_rendering L u ->
  exists st', extract_web_text L u st = (st', inl (SystemExit playwright_missing_msg))
    /\ exists tail, st_log st' = (st_log st ++ tail)%list /\ quiet tail = true.
Proof.
  intros Hp [_ [_ (resp & Hget & Hst & Hlen)]].
  unfold extract_web_text, requests_get, lift. unfold bind at 1 2 3 4.
  unfold emit at 1. rewrite Hget. unfold ret at 1. cbv beta iota.
  unfold raise_for_status. rewrite Hst. unfold ret at 1. cbv beta iota.
  unfold _parse_html_response, ret at 1. cbv beta iota.
  destruct (_MIN_CONTENT_LENGTH <=? _) eqn:E.
  - apply Nat.leb_le in E. lia.
  - rewrite bind_print_step. unfold _render_js_page. rewrite Hp. cbn [negb].
    unfold raise. eexists. split; [reflexivity|].
    exists [EvGet u; EvPrint MStaticTooShort]. split; [cbn; now rewrite <- app_assoc | reflexivity].
Qed.

(** Without Playwright, an item that needs rendering makes the [try] of the
    batch loop end in an uncaught [SystemExit]. *)
Lemma batch_item_try_exits (L : Lib) (ep secret : string) (a : article) (st : state) :
  playwright_installed L = false -> needs_rendering L (normalize_url_value (art_url a)) ->
  exists st', batch_item_try L ep secret a st = (st', inl (SystemExit playwright_missing_msg))
    /\ exists tail, st_log st' = (st_log st ++ tail)%list /\ quiet tail = true.
Proof.
  intros Hp Hn.
  pose proof (normalize_url_returns (art_url a) st) as Hnorm.
  destruct (tame_normalize_url (art_url a) _ _ _ Hnorm) as [(t1 & H1 & Q1) _].
  set (st1 := fst (normalize_url (art_url a) st)) in *.
  destruct (is_pdf_url_not_pdf L (normalize_url_value (art_url a)) st1 Hn) as [st2 Hpdf].
  destruct (tame_is_pdf_url L _ _ _ _ Hpdf) as [(t2 & H2 & Q2) _].
  destruct (extract_web_text_exits L (normalize_url_value (art_url a)) st2 Hp Hn)
    as (st3 & He & t3 & H3 & Q3).
  assert (Hb : batch_try_body L ep secret a st = (st3, inl (SystemExit playwright_missing_msg))).
  { unfold batch_try_body. rewrite (bind_ret_step _ _ _ _ _ Hnorm).
    rewrite (bind_ret_step _ _ _ _ _ Hpdf). cbv beta iota.
    apply bind_inl_step. exact He. }
  exists st3. split.
  - unfold batch_item_try, try_except. rewrite (bind_inl_step _ _ _ _ _ Hb). reflexivity.
  - exists (t1 ++ t2 ++ t3)%list. rewrite H3, H2, H1, !app_assoc. split; [reflexivity|].
    now rewrite !quiet_app, Q1, Q2, Q3.
Qed.

Lemma combine_seq_snoc (pre : list article) (a : article) :
  forall i, combine (seq i (S (List.length pre))) (map art_title (pre ++ [a]))
  = (combine (seq i (List.length pre)) (map art_title pre)
     ++ [(i + List.length pre, art_title a)])%list.
Proof.
  induction pre as [|b pre IH]; intros i.
  - cbn. now rewrite Nat.add_0_r.
  - cbn [List.length].
    change (seq i (S (S (List.length pre)))) with (i :: seq (S i) (S (List.length pre))).
    change (seq i (S (List.length pre))) with (i :: seq (S i) (List.length pre)).
    cbn [app map combine]. rewrite IH.
    now rewrite <- Nat.add_succ_comm.
Qed.

(** C1 (amended): without Playwright, an item that needs rendering ends the
    whole batch run with [SystemExit], which the per-item [except Exception]
    does not catch: the items before it have their headers, no later item
    is attempted, and no summary is printed. *)
Theorem batch_run_exits_without_renderer (L : Lib) (ep secret : string)
  (pre : list article) (a : article) (post : list article) (st : state) :
  playwright_installed L = false -> truthy secret = true ->
  (forall b, In b pre -> item_completes L ep secret b) ->
  needs_rendering L (normalize_url_value (art_url a)) ->
  exists st' tail,
    batch_run L ep secret (pre ++ a :: post) st
      = (st', inl (SystemExit playwright_missing_msg))
    /\ st_log st' = (st_log st ++ tail)%list
    /\ item_headers tail
       = combine (seq 1 (S (List.length pre))) (map art_title (pre ++ [a]))
    /\ summaries tail = [].
Proof.
  intros Hp Hs Hpre Hn.
  set (N := List.length (pre ++ a :: post)).
  set (st0 := {| st_log := (st_log st ++ [EvPrint (MBatchStart N)])%list;
                 st_stdin := st_stdin st |}).
  destruct (batch_loop_completes L ep secret N pre Hpre 1 0 [] st0)
    as (st1 & s' & extra & tail & Hl & H1 & I1 & F1 & S1 & _ & _).
  set (st1' := {| st_log := ((st_log st1 ++ [EvPrint (MItem (1 + List.length pre) N (art_title a))])
                             ++ [EvPrint (MUrl (art_url a))])%list;
                  st_stdin := st_stdin st1 |}).
  destruct (batch_item_try_exits L ep secret a st1' Hp Hn) as (st2 & Hi & t2 & H2 & Q2).
  destruct (quiet_no_report t2 Q2) as (I2 & _ & S2).
  assert (HL : batch_loop L ep secret N 1 (pre ++ a :: post) 0 [] st0
               = (st2, inl (SystemExit playwright_missing_msg))).
  { rewrite batch_loop_app, Hl, batch_loop_cons. cbv zeta. fold st1'. rewrite Hi.
    reflexivity. }
  unfold batch_run. rewrite Hs. cbn [negb]. cbv zeta. fold N.
  rewrite bind_print_step. fold st0. rewrite (bind_inl_step _ _ _ _ _ HL).
  exists st2, ([EvPrint (MBatchStart N)] ++ tail
               ++ [EvPrint (MItem (1 + List.length pre) N (art_title a));
                   EvPrint (MUrl (art_url a))] ++ t2)%list.
  split; [reflexivity|].
  split; [rewrite H2; cbn [st1' st_log]; rewrite H1; cbn [st0 st_log];
          now rewrite <- !app_assoc|].
  rewrite !item_headers_app, !summaries_app, I1, S1, I2, S2, combine_seq_snoc.
  split; cbn [item_headers summaries app]; reflexivity.
Qed.

Lemma batch_run_exits_without_renderer_witness :
  exists st' tail,
    batch_run (sample_lib false "") "e" "s"
      ([mk_article page_url "Alpha" "journal" "J"] ++
       mk_article spa_url "Beta" "journal" "J" ::
       [mk_article page_url "Gamma" "journal" "J"]) st0
      = (st', inl (SystemExit playwright_missing_msg))
    /\ st_log st' = (st_log st0 ++ tail)%list
    /\ item_headers tail
       = combine (seq 1 (S (List.length [mk_article page_url "Alpha" "journal" "J"])))
                 (map art_title ([mk_article page_url "Alpha" "journal" "J"] ++
                                 [mk_article spa_url "Beta" "journal" "J"]))
    /\ summaries tail = [].
Proof.
  apply batch_run_exits_without_renderer.
  - reflexivity.
  - reflexivity.
  - intros b [<-|[]] st. eexists _, _, _. split; [reflexivity|].
    split; [cbn; rewrite <- !app_assoc; reflexivity | reflexivity].
  - split; [|split].
    + eexists. split; reflexivity.
    + reflexivity.
    + eexists. split; [reflexivity|]. split; [reflexivity|]. vm_compute. lia.
Defined.

(** C1, counterexample: Playwright missing, the first of two items needs
    rendering; the run ends with [SystemExit], the second item is never
    attempted and no summary is printed. *)
Lemma batch_run_render_unavailable_counterexample :
  let r := batch_run (sample_lib false "") "e" "s"
             [mk_article spa_url "Beta" "journal" "J";
              mk_article page_url "Gamma" "journal" "J"] st0 in
  snd r = inl (SystemExit playwright_missing_msg)
  /\ item_headers (st_log (fst r)) = [(1, "Beta")]
  /\ summaries (st_log (fst r)) = [].
Proof. vm_compute. repeat split. Qed.

(** C10, counterexample: item 1's submission always fails and item 2 needs
    rendering without Playwright; item 3 is never attempted and no report
    is printed, so the failure list does not name item 1. *)
Lemma batch_run_failing_item_counterexample :
  let r := batch_run (sample_lib false "Alpha") "e" "s"
             [mk_article page_url "Alpha" "journal" "J";
              mk_article spa_url "Beta" "journal" "J";
              mk_article page_url "Gamma" "journal" "J"] st0 in
  item_headers (st_log (fst r)) = [(1, "Alpha"); (2, "Beta")]
  /\ count_occ string_dec (failure_titles (st_log (fst r))) "Alpha" = 0
  /\ summaries (st_log (fst r)) = [].
Proof. vm_compute. repeat split. Qed.

Lemma batch_run_failing_item_reported_witness :
  exists st' tail,
    batch_run (sample_lib true "Alpha") "e" "s"
      [mk_article page_url "Alpha" "journal" "J";
       mk_article spa_url "Beta" "journal" "J";
       mk_article page_url "Gamma" "journal" "J"] st0 = (st', inr tt)
    /\ st_log st' = (st_log st0 ++ tail)%list
    /\ item_headers tail
       = combine (seq 1 3) ["Alpha"; "Beta"; "Gamma"]
    /\ (exists succeeded, summaries tail = [(succeeded, 3)])
    /\ count_occ string_dec (failure_titles tail) "Alpha" = 1.
Proof.
  apply (batch_run_failing_item_reported (sample_lib true "Alpha") "e" "s"
           [mk_article page_url "Alpha" "journal" "J";
            mk_article spa_url "Beta" "journal" "J";
            mk_article page_url "Gamma" "journal" "J"]
           (mk_article page_url "Alpha" "journal" "J") st0).
  - reflexivity.
  - reflexivity.
  - vm_compute. repeat constructor; cbn; intuition discriminate.
  - now left.
  - intros content st1. eexists _, _. reflexivity.
Defined.

(** ** Invariants of the event log *)

Lemma keeps_ret (P : event -> bool) {A} (a : A) : keeps P (ret a).
Proof.
  intros st st' r H. injection H as <- <-. exists []. now rewrite app_nil_r.
Qed.

Lemma keeps_raise (P : event -> bool) {A} (e : exc) : keeps P (A := A) (raise e).
Proof.
  intros st st' r H. injection H as <- <-. exists []. now rewrite app_nil_r.
Qed.

Lemma keeps_lift (P : event -> bool) {A} (r : result A) : keeps P (lift r).
Proof. destruct r; [apply keeps_ret | apply keeps_raise]. Qed.

Lemma keeps_emit (P : event -> bool) (ev : event) : P ev = true -> keeps P (emit ev).
Proof.
  intros Hp st st' r H. injection H as <- <-. exists [ev]. cbn. now rewrite Hp.
Qed.

Lemma keeps_print (P : event -> bool) (m : message) :
  P (EvPrint m) = true -> keeps P (print m).
Proof. apply keeps_emit. Qed.

Lemma keeps_input (P : event -> bool) (p : string) :
  P (EvPrint (MPrompt p)) = true -> keeps P (input p).
Proof.
  intros Hp st st' r H. unfold input in H.
  destruct (st_stdin st); injection H as <- <-; exists [EvPrint (MPrompt p)];
    cbn; now rewrite Hp.
Qed.

Lemma keeps_bind (P : event -> bool) {A B} (m : PyM A) (f : A -> PyM B) :
  keeps P m -> (forall a, keeps P (f a)) -> keeps P (bind m f).
Proof.
  intros Hm Hf st st' r H. unfold bind in H.
  destruct (m st) as [st1 [e|a]] eqn:E.
  - injection H as <- <-. exact (Hm _ _ _ E).
  - destruct (Hm _ _ _ E) as [t1 [H1 Q1]], (Hf a _ _ _ H) as [t2 [H2 Q2]].
    exists (t1 ++ t2)%list. rewrite H2, H1, app_assoc, forallb_app, Q1, Q2.
    now split.
Qed.

Lemma keeps_try_except (P : event -> bool) {A} (m : PyM A) (c : exc -> bool)
  (h : exc -> PyM A) :
  keeps P m -> (forall e, keeps P (h e)) -> keeps P (try_except m c h).
Proof.
  intros Hm Hh st st' r H. unfold try_except in H.
  destruct (m st) as [st1 [e|a]] eqn:E.
  - destruct (Hm _ _ _ E) as [t1 [H1 Q1]]. destruct (c e).
    + destruct (Hh e _ _ _ H) as [t2 [H2 Q2]].
      exists (t1 ++ t2)%list. rewrite H2, H1, app_assoc, forallb_app, Q1, Q2.
      now split.
    + injection H as <- <-. now exists t1.
  - injection H as <- <-. exact (Hm _ _ _ E).
Qed.

Lemma keeps_weaken (P Q : event -> bool) {A} (m : PyM A) :
  (forall ev, P ev = true -> Q ev = true) -> keeps P m -> keeps Q m.
Proof.
  intros HPQ Hm st st' r H. destruct (Hm _ _ _ H) as [t [Ht Hp]].
  exists t. split; [exact Ht|]. apply forallb_forall. intros ev Hin.
  apply HPQ. exact (proj1 (forallb_forall _ _) Hp ev Hin).
Qed.

Create HintDb keeps.

(** The side conditions on the events: a print that is no report line, and
    the requests that fetch a source. *)
#[local] Hint Extern 1 (forall m, is_report (EvPrint m) = false ->
                         is_prompt (EvPrint m) = false -> _ = true) =>
  let m := fresh "m" in let Hm := fresh "Hm" in let Hq := fresh "Hq" in
  intros m Hm Hq; cbv beta;
  first [reflexivity | rewrite Hm; reflexivity | rewrite Hq; reflexivity] : keeps.
#[local] Hint Extern 1 (forall p, _ (EvPrint (MPrompt p)) = true) =>
  intros; reflexivity : keeps.
#[local] Hint Extern 1 (forall u, _ = true /\ _ = true /\ _ = true) =>
  intros; cbn; repeat split : keeps.

Ltac keeps_step :=
  match goal with
  | |- keeps ?P (bind (ret ?a) ?f) => change (keeps P (f a)); cbv beta
  | |- keeps _ (bind _ _) => apply keeps_bind; [|intros ?]
  | |- keeps _ (try_except _ _ _) => apply keeps_try_except; [|intros ?]
  | |- keeps _ (ret _) => apply keeps_ret
  | |- keeps _ (raise _) => apply keeps_raise
  | |- keeps _ (lift _) => apply keeps_lift
  | |- keeps _ (emit _) => apply keeps_emit; try reflexivity
  | |- keeps _ (print _) => apply keeps_print; try reflexivity
  | |- keeps _ (input _) => apply keeps_input; try reflexivity
  | |- keeps _ (if true then _ else _) => cbv beta iota
  | |- keeps _ (if false then _ else _) => cbv beta iota
  | |- keeps _ (if ?b then _ else _) => destruct b eqn:?
  | |- keeps _ (match ?x with _ => _ end) => destruct x
  | |- keeps _ _ => solve [eauto with keeps]
  end.

Ltac keeps_tac := repeat keeps_step.

Section KeepsLib.

Variable P : event -> bool.
(** [P] admits every print that is neither a report line nor a prompt. *)
Hypothesis HPp : forall m, is_report (EvPrint m) = false ->
  is_prompt (EvPrint m) = false -> P (EvPrint m) = true.

Ltac side := try (apply HPp; reflexivity).

Lemma keeps_normalize_url (u : string) : keeps P (normalize_url u).
Proof. unfold normalize_url. keeps_tac; side. Qed.
#[local] Hint Resolve keeps_normalize_url : keeps.

Lemma keeps_raise_for_status (r : response) : keeps P (raise_for_status r).
Proof. unfold raise_for_status. keeps_tac. Qed.
#[local] Hint Resolve keeps_raise_for_status : keeps.

Lemma keeps_parse_html_response (L : Lib) (r : response) :
  keeps P (_parse_html_response L r).
Proof. unfold _parse_html_response. keeps_tac. Qed.
#[local] Hint Resolve keeps_parse_html_response : keeps.

Lemma keeps_extract_pdf_text (L : Lib) (p : string) : keeps P (extract_pdf_text L p).
Proof. unfold extract_pdf_text. keeps_tac. Qed.
#[local] Hint Resolve keeps_extract_pdf_text : keeps.

Lemma keeps_result_fields (j : json) : keeps P (result_fields j).
Proof. unfold result_fields. keeps_tac. Qed.
#[local] Hint Resolve keeps_result_fields : keeps.

(** [P] also admits the prompts of [input]. *)
Hypothesis HPq : forall p, P (EvPrint (MPrompt p)) = true.

Lemma keeps_prompt_metadata (t : string) : keeps P (prompt_metadata t).
Proof. unfold prompt_metadata. keeps_tac; side; apply HPq. Qed.
#[local] Hint Resolve keeps_prompt_metadata : keeps.

Lemma keeps_assemble_metadata (args : cli_args) (t : string) (u : option string) :
  keeps P (assemble_metadata args t u).
Proof.
  unfold assemble_metadata.
  destruct (a_title args); keeps_tac; try apply keeps_prompt_metadata.
Qed.

Lemma keeps_send_to_ingest (L : Lib) (ep secret : string) (p : payload) :
  P (EvPost ep secret p) = true -> keeps P (send_to_ingest L ep secret p).
Proof. intros Hp. unfold send_to_ingest. keeps_tac; exact Hp. Qed.

(** [P] also admits the requests that fetch a source. *)
Hypothesis HPf : forall u, P (EvHead u) = true /\ P (EvGet u) = true /\ P (EvBrowser u) = true.

Lemma keeps_requests_get (L : Lib) (u : string) : keeps P (requests_get L u).
Proof. unfold requests_get. keeps_tac. apply HPf. Qed.
#[local] Hint Resolve keeps_requests_get : keeps.

Lemma keeps_is_pdf_url (L : Lib) (u : string) : keeps P (is_pdf_url L u).
Proof. unfold is_pdf_url, requests_head. keeps_tac. apply HPf. Qed.

Lemma keeps_render_js_page (L : Lib) (u : string) : keeps P (_render_js_page L u).
Proof. unfold _render_js_page. keeps_tac. apply HPf. Qed.

Lemma keeps_extract_web_text (L : Lib) (u : string) : keeps P (extract_web_text L u).
Proof.
  unfold extract_web_text. keeps_tac; side. apply keeps_render_js_page.
Qed.

Lemma keeps_download_pdf (L : Lib) (u : string) : keeps P (download_pdf L u).
Proof.
  unfold download_pdf. keeps_tac; side.
Qed.

End KeepsLib.

#[local] Hint Resolve keeps_normalize_url keeps_raise_for_status
  keeps_parse_html_response keeps_extract_pdf_text keeps_result_fields
  keeps_prompt_metadata keeps_assemble_metadata keeps_requests_get
  keeps_is_pdf_url keeps_render_js_page keeps_extract_web_text
  keeps_download_pdf : keeps.

(** ** Lines of a text file *)

Lemma concat_empty_cons (x : string) (l : list string) :
  concat "" (x :: l) = x ++ concat "" l.
Proof. destruct l; cbn; [symmetry; apply sappend_empty_r | reflexivity]. Qed.

(** [f.readlines()] loses nothing: joining the lines gives back the text. *)
Lemma readlines_concat (s : string) : concat "" (readlines s) = s.
Proof.
  induction s as [|c s IH]; [reflexivity|]. cbn [readlines].
  destruct (Ascii.eqb c nl).
  - rewrite concat_empty_cons, IH. reflexivity.
  - destruct (readlines s) as [|l ls].
    + cbn in IH |- *. now rewrite <- IH.
    + rewrite concat_empty_cons in IH |- *. cbn. now rewrite IH.
Qed.

Theorem readlines_shape (s : string) :
  concat "" (readlines s) = s
  /\ exists bodies last,
       readlines s = (map (fun b => (b ++ String nl "")%string) bodies
                      ++ (if truthy last then [last] else []))%list
       /\ Forall (fun b => str_forallb not_newline b = true) bodies
       /\ str_forallb not_newline last = true.
Proof.
  split; [apply readlines_concat|].
  induction s as [|c s IH].
  - exists [], "". repeat split. constructor.
  - destruct IH as (bodies & last & Hl & Hb & Hlast). cbn [readlines].
    destruct (Ascii.eqb c nl) eqn:Ec.
    + apply Ascii.eqb_eq in Ec. subst c.
      exists ("" :: bodies), last. rewrite Hl. split; [reflexivity|].
      split; [constructor; [reflexivity | exact Hb] | exact Hlast].
    + assert (Hc : not_newline c = true) by (unfold not_newline; now rewrite Ec).
      rewrite Hl. destruct bodies as [|b bs].
      * destruct (truthy last) eqn:Et; cbn.
        -- exists [], (String c last). cbn. repeat split; [constructor|].
           now rewrite Hc, Hlast.
        -- exists [], (String c ""). cbn. repeat split; [constructor|].
           now rewrite Hc.
      * inversion Hb as [|b' bs' Hb1 Hbs]; subst.
        exists (String c b :: bs), last. cbn. split; [reflexivity|].
        split; [constructor; [cbn; now rewrite Hc, Hb1 | exact Hbs] | exact Hlast].
Qed.

(** A section from line 1 to (at least) the last line is the whole text. *)
Theorem raw_text_whole_file (txt : string) (sec : section) :
  start_line sec = 1%Z ->
  (Z.of_nat (List.length (readlines txt)) <= end_line sec)%Z ->
  raw_text (readlines txt) sec = txt.
Proof.
  intros Hs He. unfold raw_text, raw_slice, py_slice. rewrite Hs.
  set (l := readlines txt) in *. set (n := Z.of_nat (List.length l)) in *.
  replace ((1 - 1 <? 0)%Z) with false by reflexivity.
  replace ((end_line sec <? 0)%Z) with false by (symmetry; apply Z.ltb_ge; lia).
  replace (Z.min (1 - 1) n) with 0%Z by lia.
  replace (Z.min (end_line sec) n) with n by lia.
  cbn [Z.to_nat skipn]. rewrite Z.sub_0_r. unfold n. rewrite Nat2Z.id, firstn_all.
  apply readlines_concat.
Qed.

Lemma nth_error_firstn_at {A} (l : list A) (m k : nat) :
  nth_error (firstn m l) k = if k <? m then nth_error l k else None.
Proof.
  revert l k. induction m as [|m IH]; intros l k.
  - cbn. now destruct k.
  - destruct l as [|x l]; cbn [firstn].
    + destruct k, (_ <? _); reflexivity.
    + destruct k; [reflexivity|]. cbn [nth_error]. rewrite IH. reflexivity.
Qed.

(** Element [k] of a section's slice is line [start_line + k] of the file
    (1-based), when that line exists and is not past [end_line]. *)
Theorem raw_slice_nth (lines : list string) (sec : section) (k : nat) :
  (1 <= start_line sec)%Z -> (0 <= end_line sec)%Z ->
  nth_error (raw_slice lines sec) k
  = if (Z.of_nat k + start_line sec <=? end_line sec)%Z
    then nth_error lines (Z.to_nat (start_line sec - 1) + k) else None.
Proof.
  intros Hs He. unfold raw_slice, py_slice.
  set (n := Z.of_nat (List.length lines)).
  replace ((start_line sec - 1 <? 0)%Z) with false by (symmetry; apply Z.ltb_ge; lia).
  replace ((end_line sec <? 0)%Z) with false by (symmetry; apply Z.ltb_ge; lia).
  rewrite nth_error_firstn_at, nth_error_skipn.
  assert (Hn : (0 <= n)%Z) by lia.
  destruct (Z.leb_spec (Z.of_nat k + start_line sec) (end_line sec)) as [Hk|Hk];
    destruct (Nat.ltb_spec k (Z.to_nat (Z.min (end_line sec) n
                                         - Z.min (start_line sec - 1) n))) as [Hm|Hm].
  - f_equal. lia.
  - symmetry. rewrite nth_error_None.
    assert (Z.of_nat (List.length lines) = n) by reflexivity. lia.
  - lia.
  - reflexivity.
Qed.

(** ** Stripped text *)

Lemma str_forallb_app (p : ascii -> bool) (a b : string) :
  str_forallb p (a ++ b) = str_forallb p a && str_forallb p b.
Proof. induction a as [|c a IH]; cbn; [reflexivity|]. now rewrite IH, andb_assoc. Qed.

Lemma str_forallb_srev (p : ascii -> bool) (a : string) :
  str_forallb p (srev a) = str_forallb p a.
Proof.
  induction a as [|c a IH]; cbn; [reflexivity|].
  rewrite str_forallb_app, IH. cbn. now rewrite andb_true_r, andb_comm.
Qed.

Lemma lstrip_empty_iff (s : string) : lstrip s = "" <-> str_forallb py_isspace s = true.
Proof.
  induction s as [|c s IH]; cbn; [tauto|].
  destruct (py_isspace c); cbn; [exact IH|]. split; discriminate.
Qed.

Lemma py_strip_empty_iff (s : string) : py_strip s = "" <-> str_forallb py_isspace s = true.
Proof.
  unfold py_strip, rstrip. split.
  - intros H. apply srev_empty, lstrip_empty_iff in H.
    rewrite str_forallb_srev in H. apply lstrip_empty_iff.
    rewrite <- (lstrip_id (lstrip s) (lstrip_hd s)). now apply lstrip_empty_iff.
  - intros H. apply lstrip_empty_iff in H. rewrite H. reflexivity.
Qed.

Lemma py_strip_idem (s : string) : py_strip (py_strip s) = py_strip s.
Proof.
  destruct (string_dec (py_strip s) "") as [E|E].
  - rewrite E. reflexivity.
  - destruct (py_strip_ends s E) as [H1 H2]. exact (py_strip_id _ H1 H2).
Qed.

(** The result of [clean_ocr_text] neither starts nor ends with
    whitespace. *)
Theorem clean_ocr_text_stripped (text : string) :
  hd_ok (clean_ocr_text text) = true /\ hd_ok (srev (clean_ocr_text text)) = true.
Proof.
  unfold clean_ocr_text. cbv zeta. set (q := re_sub _ _ _).
  destruct (string_dec (py_strip q) "") as [E|E].
  - rewrite E. now split.
  - exact (py_strip_ends q E).
Qed.

Lemma soup_title_stripped (s : soup) : py_strip (soup_title s) = soup_title s.
Proof.
  unfold soup_title. destruct (soup_title_string s) as [t|]; [|reflexivity].
  destruct (truthy t); [apply py_strip_idem | reflexivity].
Qed.

(** The title and the text [extract_web_text] returns, from the static
    page or from the rendered one, carry no surrounding whitespace. *)
Theorem extract_web_text_stripped (L : Lib) (url : string) (st st' : state)
  (title txt : string) :
  extract_web_text L url st = (st', inr (title, txt)) ->
  py_strip title = title /\ py_strip txt = txt.
Proof.
  intros H. unfold extract_web_text in H.
  apply bind_inr in H as (s1 & resp & _ & H).
  apply bind_inr in H as (s2 & _ & _ & H).
  apply bind_inr in H as (s3 & [t x] & Hp & H).
  unfold _parse_html_response, ret in Hp. injection Hp as <- <- <-.
  destruct (_ <=? _).
  - injection H as <- <- <-. split; [apply soup_title_stripped | apply soup_text_stripped].
  - apply bind_inr in H as (s4 & _ & _ & H). unfold _render_js_page in H.
    destruct (negb _); [discriminate|].
    apply bind_inr in H as (s5 & _ & _ & H).
    apply bind_inr in H as (s6 & html & _ & H).
    injection H as <- <- <-. split; [apply soup_title_stripped | apply soup_text_stripped].
Qed.

Lemma str_forallb_concat (p : ascii -> bool) (sep : string) (l : list string) :
  str_forallb p sep = true ->
  str_forallb p (concat sep l) = forallb (str_forallb p) l.
Proof.
  intros Hs. induction l as [|x l IH]; [reflexivity|].
  destruct l as [|y l].
  - cbn. now rewrite andb_true_r.
  - change (concat sep (x :: y :: l)) with (x ++ sep ++ concat sep (y :: l)).
    rewrite !str_forallb_app, Hs, IH. reflexivity.
Qed.

Lemma forallb_map_comp {A B} (f : B -> bool) (g : A -> B) (l : list A) :
  forallb f (map g l) = forallb (fun x => f (g x)) l.
Proof. induction l as [|x l IH]; cbn; [reflexivity | now rewrite IH]. Qed.

Lemma blank_iff (s : string) :
  truthy (py_strip s) = false <-> str_forallb py_isspace s = true.
Proof.
  rewrite <- py_strip_empty_iff. unfold truthy.
  rewrite negb_false_iff, String.eqb_eq. tauto.
Qed.

(** The text [extract_pdf_text] returns is blank exactly when the text of
    every page is blank; [process_one] then stops at "No text extracted". *)
Theorem extract_pdf_text_blank (L : Lib) (path : string) (st st' : state) (c : string) :
  extract_pdf_text L path st = (st', inr c) ->
  exists pages, pdf_pages_of_path L path = Ok pages
    /\ (truthy (py_strip c) = false
        <-> Forall (fun p => truthy (py_strip p) = false) pages).
Proof.
  intros H. unfold extract_pdf_text, bind, lift in H.
  destruct (pdf_pages_of_path L path) as [pages|k m]; [|discriminate].
  unfold ret in H. injection H as <- <-. exists pages. split; [reflexivity|].
  rewrite blank_iff. unfold join_pages.
  rewrite str_forallb_concat by reflexivity. rewrite forallb_map_comp.
  rewrite forallb_forall, Forall_forall. split.
  - intros Hall p Hp. apply blank_iff.
    destruct (truthy p) eqn:Et.
    + apply py_strip_empty_iff. rewrite <- py_strip_idem.
      apply py_strip_empty_iff, Hall, filter_In. now split.
    + unfold truthy in Et. apply negb_false_iff, String.eqb_eq in Et. subst p.
      reflexivity.
  - intros Hall p Hp. apply filter_In in Hp as [Hp _].
    apply py_strip_empty_iff. rewrite py_strip_idem.
    apply py_strip_empty_iff, blank_iff, Hall, Hp.
Qed.

(** ** Standard input *)

Lemma stdin_kept_ret {A} (a : A) : stdin_kept (ret a).
Proof. intros st st' r H. now injection H as <- <-. Qed.

Lemma stdin_kept_raise {A} (e : exc) : stdin_kept (A := A) (raise e).
Proof. intros st st' r H. now injection H as <- <-. Qed.

Lemma stdin_kept_lift {A} (r : result A) : stdin_kept (lift r).
Proof. destruct r; [apply stdin_kept_ret | apply stdin_kept_raise]. Qed.

Lemma stdin_kept_emit (ev : event) : stdin_kept (emit ev).
Proof. intros st st' r H. now injection H as <- <-. Qed.

Lemma stdin_kept_print (m : message) : stdin_kept (print m).
Proof. apply stdin_kept_emit. Qed.

Lemma stdin_kept_bind {A B} (m : PyM A) (f : A -> PyM B) :
  stdin_kept m -> (forall a, stdin_kept (f a)) -> stdin_kept (bind m f).
Proof.
  intros Hm Hf st st' r H. unfold bind in H.
  destruct (m st) as [st1 [e|a]] eqn:E.
  - injection H as <- <-. exact (Hm _ _ _ E).
  - rewrite (Hf a _ _ _ H). exact (Hm _ _ _ E).
Qed.

Lemma stdin_kept_try_except {A} (m : PyM A) (c : exc -> bool) (h : exc -> PyM A) :
  stdin_kept m -> (forall e, stdin_kept (h e)) -> stdin_kept (try_except m c h).
Proof.
  intros Hm Hh st st' r H. unfold try_except in H.
  destruct (m st) as [st1 [e|a]] eqn:E.
  - destruct (c e).
    + rewrite (Hh e _ _ _ H). exact (Hm _ _ _ E).
    + injection H as <- <-. exact (Hm _ _ _ E).
  - injection H as <- <-. exact (Hm _ _ _ E).
Qed.

Create HintDb stdin.

Ltac stdin_step :=
  match goal with
  | |- stdin_kept _ => solve [eauto with stdin]
  | |- stdin_kept (bind _ _) => apply stdin_kept_bind; [|intros ?]
  | |- stdin_kept (try_except _ _ _) => apply stdin_kept_try_except; [|intros ?]
  | |- stdin_kept (ret _) => apply stdin_kept_ret
  | |- stdin_kept (raise _) => apply stdin_kept_raise
  | |- stdin_kept (lift _) => apply stdin_kept_lift
  | |- stdin_kept (emit _) => apply stdin_kept_emit
  | |- stdin_kept (print _) => apply stdin_kept_print
  | |- stdin_kept (if true then _ else _) => cbv beta iota
  | |- stdin_kept (if false then _ else _) => cbv beta iota
  | |- stdin_kept (if ?b then _ else _) => destruct b eqn:?
  | |- stdin_kept (match ?x with _ => _ end) => destruct x
  end.

Ltac stdin_tac := repeat stdin_step.

Lemma stdin_kept_normalize_url (u : string) : stdin_kept (normalize_url u).
Proof. unfold normalize_url. stdin_tac. Qed.
#[local] Hint Resolve stdin_kept_normalize_url : stdin.

Lemma stdin_kept_requests_get (L : Lib) (u : string) : stdin_kept (requests_get L u).
Proof. unfold requests_get. stdin_tac. Qed.
#[local] Hint Resolve stdin_kept_requests_get : stdin.

Lemma stdin_kept_raise_for_status (r : response) : stdin_kept (raise_for_status r).
Proof. unfold raise_for_status. stdin_tac. Qed.
#[local] Hint Resolve stdin_kept_raise_for_status : stdin.

Lemma stdin_kept_parse_html_response (L : Lib) (r : response) :
  stdin_kept (_parse_html_response L r).
Proof. unfold _parse_html_response. stdin_tac. Qed.
#[local] Hint Resolve stdin_kept_parse_html_response : stdin.

Lemma stdin_kept_is_pdf_url (L : Lib) (u : string) : stdin_kept (is_pdf_url L u).
Proof. unfold is_pdf_url, requests_head. stdin_tac. Qed.
#[local] Hint Resolve stdin_kept_is_pdf_url : stdin.

Lemma stdin_kept_render_js_page (L : Lib) (u : string) : stdin_kept (_render_js_page L u).
Proof. unfold _render_js_page. stdin_tac. Qed.
#[local] Hint Resolve stdin_kept_render_js_page : stdin.

Lemma stdin_kept_extract_web_text (L : Lib) (u : string) : stdin_kept (extract_web_text L u).
Proof. unfold extract_web_text. stdin_tac. Qed.
#[local] Hint Resolve stdin_kept_extract_web_text : stdin.

Lemma stdin_kept_download_pdf (L : Lib) (u : string) : stdin_kept (download_pdf L u).
Proof. unfold download_pdf. stdin_tac. Qed.
#[local] Hint Resolve stdin_kept_download_pdf : stdin.

Lemma stdin_kept_extract_pdf_text (L : Lib) (p : string) : stdin_kept (extract_pdf_text L p).
Proof. unfold extract_pdf_text. stdin_tac. Qed.
#[local] Hint Resolve stdin_kept_extract_pdf_text : stdin.

Lemma stdin_kept_send_to_ingest (L : Lib) (ep secret : string) (p : payload) :
  stdin_kept (send_to_ingest L ep secret p).
Proof. unfold send_to_ingest. stdin_tac. Qed.
#[local] Hint Resolve stdin_kept_send_to_ingest : stdin.

Lemma stdin_kept_result_fields (j : json) : stdin_kept (result_fields j).
Proof. unfold result_fields. stdin_tac. Qed.
#[local] Hint Resolve stdin_kept_result_fields : stdin.

Lemma py_or_truthy (a b : option string) :
  opt_truthy b = true -> opt_truthy (py_or a b) = true.
Proof. unfold py_or. destruct (opt_truthy a) eqn:E; auto. Qed.

(** When the source gives a URL ([auto_source_url]), the metadata always
    ends with a non-empty [source_url]: from [--source-url], from the
    answer to the prompt, or that URL. *)
Theorem assemble_metadata_source_url (args : cli_args) (t : string)
  (u : option string) (st st' : state) (m : metadata) :
  opt_truthy u = true ->
  assemble_metadata args t u st = (st', inr m) ->
  opt_truthy (m_source_url m) = true.
Proof.
  intros Hu H. unfold assemble_metadata in H.
  assert (Hp : forall st1,
    (m0 <- prompt_metadata t ;;
     if negb (opt_truthy (m_source_url m0)) && opt_truthy u
     then ret {| m_title := m_title m0; m_author := m_author m0;
                 m_category := m_category m0; m_source := m_source m0;
                 m_source_url := u |}
     else ret m0) st1 = (st', inr m) -> opt_truthy (m_source_url m) = true).
  { intros st1 H1. apply bind_inr in H1 as (s1 & m0 & _ & H1).
    rewrite Hu, andb_true_r in H1.
    destruct (opt_truthy (m_source_url m0)) eqn:E; cbn in H1;
      injection H1 as <- <-; [exact E | exact Hu]. }
  destruct (a_title args) as [ti|].
  - destruct (truthy ti); [|destruct (a_batch args)];
      try (injection H as <- <-; now apply py_or_truthy).
    exact (Hp _ H).
  - destruct (a_batch args); [injection H as <- <-; now apply py_or_truthy|].
    exact (Hp _ H).
Qed.

(** ** One target of ingest.py *)

Lemma assemble_metadata_noninteractive (args : cli_args) (t : string)
  (u : option string) (st : state) :
  a_batch args = true \/ opt_truthy (a_title args) = true ->
  exists m, assemble_metadata args t u st = (st, inr m).
Proof.
  intros Hb. unfold assemble_metadata.
  destruct (a_title args) as [ti|]; cbn in Hb.
  - destruct (truthy ti); [eexists; reflexivity|].
    destruct Hb as [Hb|Hb]; [|discriminate]. rewrite Hb. eexists; reflexivity.
  - destruct Hb as [Hb|Hb]; [|discriminate]. rewrite Hb. eexists; reflexivity.
Qed.

(** With [--batch] or a non-empty [--title], [process_one] never prompts:
    it shows no prompt and reads nothing from standard input. *)
Theorem process_one_noninteractive (L : Lib) (target : string) (args : cli_args)
  (ep secret : string) :
  a_batch args = true \/ opt_truthy (a_title args) = true ->
  stdin_kept (process_one L target args ep secret)
  /\ keeps (fun ev => negb (is_prompt ev)) (process_one L target args ep secret).
Proof.
  intros Hb.
  assert (Ha : forall t u, stdin_kept (assemble_metadata args t u)
                           /\ keeps (fun ev => negb (is_prompt ev)) (assemble_metadata args t u)).
  { intros t u. split; intros st st' r H;
      destruct (assemble_metadata_noninteractive args t u st Hb) as [m Hm];
      rewrite Hm in H; injection H as <- <-; [reflexivity|].
    exists []. now rewrite app_nil_r. }
  unfold process_one. cbv zeta. split.
  - stdin_tac; apply Ha.
  - keeps_tac; try apply Ha;
      try (apply keeps_send_to_ingest; solve [reflexivity | eauto with keeps]).
Qed.

(** A target that is not an [http://] or [https://] URL (a local text or
    PDF file) is handled without any HEAD, GET or browser request. *)
Theorem process_one_local_offline (L : Lib) (target : string) (args : cli_args)
  (ep secret : string) :
  String.prefix "http://" target = false -> String.prefix "https://" target = false ->
  keeps (fun ev => negb (is_fetch ev)) (process_one L target args ep secret).
Proof.
  intros H1 H2. unfold process_one. cbv zeta. rewrite H1, H2. cbn [orb negb andb].
  keeps_tac; try (apply keeps_send_to_ingest; solve [reflexivity | eauto with keeps]).
Qed.

(** ** Standard input in interactive mode *)

Lemma takes5_prompt_metadata (t : string) : takes5 (prompt_metadata t).
Proof.
  intros st st' r. unfold prompt_metadata, bind, print, emit, input, ret.
  cbn [st_stdin].
  destruct (st_stdin st) as [|a0 [|a1 [|a2 [|a3 [|a4 l]]]]];
    intros H; injection H as <- <-; cbn [st_stdin skipn];
    (split; [reflexivity|]); intros a Ha; try discriminate; cbn; lia.
Qed.

Lemma takes5_bind {A B} (m : PyM A) (f : A -> PyM B) :
  takes5 m -> (forall a, stdin_kept (f a)) -> takes5 (bind m f).
Proof.
  intros Hm Hf st st' r H. unfold bind in H.
  destruct (m st) as [st1 [e|a]] eqn:E.
  - injection H as <- <-. destruct (Hm _ _ _ E) as [Hs _].
    split; [exact Hs | discriminate].
  - destruct (Hm _ _ _ E) as [Hs Hl]. rewrite (Hf a _ _ _ H).
    split; [exact Hs|]. intros _ _. exact (Hl a eq_refl).
Qed.

Lemma keeps_nopost_existsb (tail : list event) :
  forallb (fun ev => negb (is_post ev)) tail = true -> existsb is_post tail = false.
Proof.
  induction tail as [|ev tl IH]; [reflexivity|]. cbn.
  destruct (is_post ev); [discriminate|]. exact IH.
Qed.

Lemma posts_after5_kept {A} (m : PyM A) :
  stdin_kept m -> keeps (fun ev => negb (is_post ev)) m -> posts_after5 m.
Proof.
  intros Hs Hk st st' r H. destruct (Hk _ _ _ H) as [t [Ht Hp]].
  exists t. split; [exact Ht|]. split; [left; exact (Hs _ _ _ H)|].
  rewrite (keeps_nopost_existsb _ Hp). discriminate.
Qed.

Lemma posts_after5_bind_kept {A B} (m : PyM A) (f : A -> PyM B) :
  stdin_kept m -> keeps (fun ev => negb (is_post ev)) m ->
  (forall a, posts_after5 (f a)) -> posts_after5 (bind m f).
Proof.
  intros Hs Hk Hf st st' r H. unfold bind in H.
  destruct (m st) as [st1 [e|a]] eqn:E.
  - injection H as <- <-. exact (posts_after5_kept m Hs Hk _ _ _ E).
  - destruct (Hk _ _ _ E) as [t1 [H1 P1]].
    destruct (Hf a _ _ _ H) as (t2 & H2 & D2 & I2).
    rewrite (Hs _ _ _ E) in D2, I2.
    exists (t1 ++ t2)%list. split; [now rewrite H2, H1, app_assoc|].
    split; [exact D2|].
    rewrite existsb_app, (keeps_nopost_existsb _ P1). exact I2.
Qed.

Lemma posts_after5_bind_takes5 {A B} (m : PyM A) (f : A -> PyM B) :
  takes5 m -> keeps (fun ev => negb (is_post ev)) m ->
  (forall a, stdin_kept (f a)) -> (forall a, keeps (fun _ => true) (f a)) ->
  posts_after5 (bind m f).
Proof.
  intros Hm Hk Hs Hg st st' r H. unfold bind in H.
  destruct (m st) as [st1 [e|a]] eqn:E.
  - injection H as <- <-. destruct (Hk _ _ _ E) as [t1 [H1 P1]].
    destruct (Hm _ _ _ E) as [T _].
    exists t1. split; [exact H1|]. split; [right; exact T|].
    rewrite (keeps_nopost_existsb _ P1). discriminate.
  - destruct (Hk _ _ _ E) as [t1 [H1 _]], (Hg a _ _ _ H) as [t2 [H2 _]].
    destruct (Hm _ _ _ E) as [T Hl].
    assert (T' : st_stdin st' = skipn 5 (st_stdin st))
      by (rewrite (Hs a _ _ _ H); exact T).
    exists (t1 ++ t2)%list. split; [now rewrite H2, H1, app_assoc|].
    split; [right; exact T'|]. intros _. split; [exact (Hl a eq_refl) | exact T'].
Qed.

Lemma takes5_assemble_metadata (args : cli_args) (t : string) (u : option string) :
  opt_truthy (a_title args) = false -> a_batch args = false ->
  takes5 (assemble_metadata args t u).
Proof.
  intros Ht Hb. unfold assemble_metadata.
  destruct (a_title args) as [ti|]; cbn [opt_truthy] in Ht; [rewrite Ht|];
    rewrite Hb; (apply takes5_bind; [apply takes5_prompt_metadata | intros m0; stdin_tac]).
Qed.

(** In interactive mode (no non-empty [--title], no [--batch]),
    [process_one] reads either no line of standard input (a target skipped
    before the prompts, or a failure while fetching it) or the next five
    lines, all of it when fewer remain; and it submits a POST only after
    five answers were read. *)
Theorem process_one_interactive_stdin (L : Lib) (target : string) (args : cli_args)
  (ep secret : string) (st st' : state) (r : exc + unit) :
  opt_truthy (a_title args) = false -> a_batch args = false ->
  process_one L target args ep secret st = (st', r) ->
  exists tail, st_log st' = (st_log st ++ tail)%list
    /\ (st_stdin st' = st_stdin st \/ st_stdin st' = skipn 5 (st_stdin st))
    /\ (existsb is_post tail = true ->
          5 <= List.length (st_stdin st) /\ st_stdin st' = skipn 5 (st_stdin st)).
Proof.
  intros Ht Hb. revert st st' r. fold (posts_after5 (process_one L target args ep secret)).
  unfold process_one. cbv zeta.
  apply posts_after5_bind_kept; [stdin_tac | keeps_tac | intros target'].
  apply posts_after5_bind_kept; [stdin_tac | keeps_tac | intros pdf].
  apply posts_after5_bind_kept; [stdin_tac | keeps_tac | intros [[auto_title content] u]].
  destruct (negb (truthy (py_strip content))).
  - apply posts_after5_kept; [stdin_tac | keeps_tac].
  - apply posts_after5_bind_kept; [stdin_tac | keeps_tac | intros _].
    apply posts_after5_bind_takes5.
    + apply takes5_assemble_metadata; assumption.
    + apply keeps_assemble_metadata; [reflexivity | reflexivity].
    + intros m; stdin_tac.
    + intros m; keeps_tac;
        try (apply keeps_send_to_ingest; solve [reflexivity | eauto with keeps]).
Qed.

(** ** The main loop of ingest.py *)

Lemma tame_input (p : string) : tame (input p).
Proof.
  intros st st' r H. unfold input in H.
  destruct (st_stdin st); injection H as <- <-;
    (split; [exists [EvPrint (MPrompt p)]; now split | reflexivity || exact I]).
Qed.
#[local] Hint Resolve tame_input : tame.

Lemma tame_extract_pdf_text (L : Lib) (p : string) : tame (extract_pdf_text L p).
Proof. unfold extract_pdf_text. tame_tac. Qed.
#[local] Hint Resolve tame_extract_pdf_text : tame.

Lemma tame_prompt_metadata (t : string) : tame (prompt_metadata t).
Proof. unfold prompt_metadata. tame_tac. Qed.
#[local] Hint Resolve tame_prompt_metadata : tame.

Lemma tame_assemble_metadata (args : cli_args) (t : string) (u : option string) :
  tame (assemble_metadata args t u).
Proof. unfold assemble_metadata. destruct (a_title args); tame_tac. Qed.
#[local] Hint Resolve tame_assemble_metadata : tame.

Lemma tame_process_one (L : Lib) (target : string) (args : cli_args) (ep secret : string) :
  playwright_installed L = true -> tame (process_one L target args ep secret).
Proof. intros Hp. unfold process_one. cbv zeta. tame_tac. Qed.

(** [try: m except Exception: h] ends normally when [m] raises only
    [Exception]s and the handler ends normally. *)
Lemma try_except_caught {A} (m : PyM A) (h : exc -> PyM A) (st : state) :
  tame m -> (forall e st1, exists st2 a, h e st1 = (st2, inr a)) ->
  exists st' a, try_except m is_Exception h st = (st', inr a).
Proof.
  intros Hm Hh. unfold try_except. destruct (m st) as [st1 [e|a]] eqn:E.
  - destruct (Hm _ _ _ E) as [_ He]. rewrite He. apply Hh.
  - eauto.
Qed.

Lemma ingest_loop_completes (L : Lib) (args : cli_args) (ep secret : string)
  (targets : list string) :
  playwright_installed L = true ->
  forall st, exists st' tail, ingest_loop L args ep secret targets st = (st', inr tt)
                              /\ st_log st' = (st_log st ++ tail)%list.
Proof.
  intros Hp. induction targets as [|t ts IH]; intros st.
  - exists st, []. now rewrite app_nil_r.
  - cbn [ingest_loop]. unfold bind at 1.
    set (body := try_except (process_one L t args ep secret) is_Exception
                            (fun e => print (MError (exc_str e)))).
    assert (T : tame body).
    { apply tame_try_except; [apply tame_process_one; exact Hp|].
      intros e. apply tame_print. reflexivity. }
    destruct (try_except_caught (process_one L t args ep secret)
                (fun e => print (MError (exc_str e))) st)
      as (st1 & u & E).
    { apply tame_process_one. exact Hp. }
    { intros e st1. eexists _, _. reflexivity. }
    fold body in E. rewrite E.
    destruct (T _ _ _ E) as [[t1 [H1 _]] _].
    destruct (IH st1) as (st2 & t2 & E2 & H2).
    exists st2, (t1 ++ t2)%list. split; [exact E2|]. now rewrite H2, H1, app_assoc.
Qed.

(** With Playwright available, the main loop of ingest.py always reaches
    its final "All done!" line, whatever each target does: every failure
    (network, HTTP status, unreadable file, missing input on a prompt, ...)
    is caught per target. *)
Theorem ingest_main_loop_completes (L : Lib) (args : cli_args) (ep secret : string)
  (targets : list string) (st : state) :
  playwright_installed L = true ->
  exists st' tail, ingest_main_loop L args ep secret targets st = (st', inr tt)
    /\ st_log st' = (st_log st ++ tail ++ [EvPrint MAllDone])%list.
Proof.
  intros Hp. unfold ingest_main_loop, bind.
  destruct (ingest_loop_completes L args ep secret targets Hp st) as (st1 & t1 & E & H1).
  rewrite E. eexists _, t1. split; [reflexivity|]. cbn. now rewrite H1, app_assoc.
Qed.

(** ** What is submitted *)

Lemma post_ok_process_one (L : Lib) (target : string) (args : cli_args)
  (ep secret : string) :
  keeps (post_ok ep secret) (process_one L target args ep secret).
Proof.
  unfold process_one. cbv zeta. keeps_tac.
  apply keeps_send_to_ingest; try solve [eauto with keeps].
  cbn. rewrite !String.eqb_refl. cbn. now apply negb_false_iff.
Qed.

(** Every POST of ingest.py goes to the configured endpoint with the
    configured secret, and carries non-blank content. *)
Theorem ingest_main_loop_posts (L : Lib) (args : cli_args) (ep secret : string)
  (targets : list string) :
  keeps (post_ok ep secret) (ingest_main_loop L args ep secret targets).
Proof.
  unfold ingest_main_loop. keeps_tac.
  induction targets as [|t ts IH]; cbn [ingest_loop]; keeps_tac.
  apply post_ok_process_one.
Qed.

Section LoopKeeps.

Variable P : event -> bool.
Hypothesis HPp : forall m, is_report (EvPrint m) = false ->
  is_prompt (EvPrint m) = false -> P (EvPrint m) = true.
Hypothesis HPf : forall u, P (EvHead u) = true /\ P (EvGet u) = true /\ P (EvBrowser u) = true.
Variables (L : Lib) (ep secret : string).

Lemma keeps_batch_item_try (a : article) :
  (forall c, truthy (py_strip c) = true -> P (EvPost ep secret (batch_payload a c)) = true) ->
  keeps P (batch_item_try L ep secret a).
Proof.
  intros Hpost. unfold batch_item_try, batch_try_body.
  keeps_tac; try (apply HPp; reflexivity).
  apply keeps_send_to_ingest, Hpost. now apply negb_false_iff.
Qed.

Lemma keeps_batch_loop (n : nat) (items : list article) :
  (forall i t, P (EvPrint (MItem i n t)) = true) -> P (EvSleep 1) = true ->
  (forall a c, truthy (py_strip c) = true -> P (EvPost ep secret (batch_payload a c)) = true) ->
  forall i s f, keeps P (batch_loop L ep secret n i items s f).
Proof.
  intros Hi Hs Hpost. induction items as [|a rest IH]; intros i s f; cbn [batch_loop];
    keeps_tac; try (apply HPp; reflexivity); try apply Hi; try apply Hs.
  apply keeps_batch_item_try. apply Hpost.
Qed.

Lemma keeps_print_failures (failed : list (string * string)) :
  (forall t e, P (EvPrint (MFailedEntry t e)) = true) -> keeps P (print_failures failed).
Proof.
  intros He. induction failed as [|[t e] rest IH]; cbn [print_failures]; keeps_tac.
  apply He.
Qed.

Lemma keeps_kids_loop (dry_run : bool) (lines : list string) (secs : list section) :
  (forall sec c, truthy (py_strip c) = true ->
     P (EvPost ep secret (kids_payload sec c)) = true) ->
  forall s e, keeps P (kids_loop L ep secret dry_run lines secs s e).
Proof.
  intros Hpost. induction secs as [|sec rest IH]; intros s e; cbn [kids_loop];
    keeps_tac; try (apply HPp; reflexivity).
  apply keeps_send_to_ingest, Hpost. now apply negb_false_iff.
Qed.

End LoopKeeps.

Lemma post_ok_batch_payload (ep secret : string) (a : article) (c : string) :
  truthy (py_strip c) = true -> post_ok ep secret (EvPost ep secret (batch_payload a c)) = true.
Proof. intros Hc. cbn. now rewrite !String.eqb_refl. Qed.

Lemma post_ok_kids_payload (ep secret : string) (sec : section) (c : string) :
  truthy (py_strip c) = true -> post_ok ep secret (EvPost ep secret (kids_payload sec c)) = true.
Proof. intros Hc. cbn. now rewrite !String.eqb_refl. Qed.

(** Every POST of a batch run goes to the configured endpoint with the
    configured secret, and carries non-blank content. *)
Theorem batch_run_posts (L : Lib) (ep secret : string) (items : list article) :
  keeps (post_ok ep secret) (batch_run L ep secret items).
Proof.
  unfold batch_run. keeps_tac.
  - apply keeps_batch_loop; try solve [eauto with keeps]; try (intros; reflexivity).
    apply post_ok_batch_payload.
  - apply keeps_print_failures. reflexivity.
Qed.

(** Every POST of ingest_kids.py goes to the configured endpoint with the
    configured secret, and carries non-blank content. *)
Theorem ingest_kids_main_posts (L : Lib) (ep secret input_path : string) (dry_run : bool) :
  keeps (post_ok ep secret) (ingest_kids_main L ep secret input_path dry_run).
Proof.
  unfold ingest_kids_main, kids_main. keeps_tac.
  apply keeps_kids_loop; try solve [eauto with keeps]. apply post_ok_kids_payload.
Qed.

(** ** Tallies of batch_ingest.py *)

Lemma print_inv (m : message) (st st' : state) (r : exc + unit) :
  print m st = (st', r) ->
  st' = {| st_log := (st_log st ++ [EvPrint m])%list; st_stdin := st_stdin st |} /\ r = inr tt.
Proof. intros H. now injection H as <- <-. Qed.

Lemma tally_free (tail : list event) :
  forallb (fun ev => negb (is_tally ev)) tail = true ->
  summaries tail = [] /\ failure_titles tail = [].
Proof.
  induction tail as [|ev tail IH]; cbn; [auto|].
  intros H. apply andb_true_iff in H as [H1 H2].
  destruct ev as [m| | | | |]; try (apply IH; exact H2).
  destruct m; try discriminate; apply IH; exact H2.
Qed.

Lemma batch_loop_counts (L : Lib) (ep secret : string) (n : nat) (items : list article) :
  forall i s f st st' s' f',
  batch_loop L ep secret n i items s f st = (st', inr (s', f')) ->
  s' + List.length f' = s + List.length f + List.length items.
Proof.
  induction items as [|a rest IH]; intros i s f st st' s' f' H.
  - cbn in H. injection H as _ <- <-. cbn. lia.
  - cbn [batch_loop] in H.
    apply bind_inr in H as (s1 & _ & _ & H).
    apply bind_inr in H as (s2 & _ & _ & H).
    apply bind_inr in H as (s3 & o & _ & H).
    destruct o as [e|[|]].
    + apply bind_inr in H as (s4 & _ & _ & H).
      apply IH in H. rewrite length_app in H. cbn in H |- *. lia.
    + apply IH in H. rewrite length_app in H. cbn in H |- *. lia.
    + apply bind_inr in H as (s4 & _ & _ & H).
      apply IH in H. cbn in H |- *. lia.
Qed.

(** When a batch run completes, its summary line counts [s] successes out
    of the number of items, and the failure list that follows has exactly
    the other items: [s] plus the number of failure lines is the number
    of items. *)
Theorem batch_run_tally (L : Lib) (ep secret : string) (items : list article)
  (st st' : state) :
  batch_run L ep secret items st = (st', inr tt) ->
  exists tail s, st_log st' = (st_log st ++ tail)%list
    /\ summaries tail = [(s, List.length items)]
    /\ s + List.length (failure_titles tail) = List.length items.
Proof.
  intros H. unfold batch_run in H.
  destruct (negb (truthy secret)).
  { unfold bind, print, emit, raise in H. discriminate. }
  apply bind_inr in H as (s1 & u1 & H1 & H). apply print_inv in H1 as [Es1 _]. subst s1.
  apply bind_inr in H as (s2 & [s f] & Hl & H).
  assert (Hk : keeps (fun ev => negb (is_tally ev))
                 (batch_loop L ep secret (List.length items) 1 items 0 [])).
  { apply keeps_batch_loop; try solve [eauto with keeps]; try (intros; reflexivity).
    intros m Hm _. destruct m; try reflexivity; discriminate Hm. }
  destruct (Hk _ _ _ Hl) as [t2 [H2 Q2]]. destruct (tally_free t2 Q2) as [S2 F2].
  pose proof (batch_loop_counts L ep secret _ items 1 0 [] _ _ _ _ Hl) as Hc.
  cbn in Hc.
  apply bind_inr in H as (s3 & u3 & H3 & H). apply print_inv in H3 as [Es3 _]. subst s3.
  destruct f as [|p f'].
  - unfold ret in H. injection H as <-.
    exists ([EvPrint (MBatchStart (List.length items))] ++ t2
            ++ [EvPrint (MSummary s (List.length items))])%list, s.
    cbn. rewrite H2. cbn. rewrite <- !app_assoc. split; [reflexivity|].
    rewrite summaries_app, failure_titles_app, S2, F2. cbn in Hc |- *. split; [reflexivity | lia].
  - apply bind_inr in H as (s4 & u4 & H4 & H). apply print_inv in H4 as [Es4 _]. subst s4.
    rewrite print_failures_log in H. injection H as <-.
    set (es := map (fun p => EvPrint (MFailedEntry (fst p) (snd p))) (p :: f')).
    exists ([EvPrint (MBatchStart (List.length items))] ++ t2
            ++ [EvPrint (MSummary s (List.length items));
                EvPrint (MFailedCount (List.length (p :: f')))] ++ es)%list, s.
    cbn [st_log]. rewrite H2. cbn [st_log]. rewrite <- !app_assoc. split; [reflexivity|].
    rewrite !summaries_app, !failure_titles_app, S2, F2.
    destruct (item_headers_entries (p :: f')) as [_ Se].
    unfold es. rewrite Se, failure_titles_entries. cbn in Hc |- *. rewrite length_map. split; [reflexivity | lia].
Qed.

(** ** Runs of ingest_kids.py *)

Lemma kids_loop_dry (L : Lib) (ep secret : string) (lines : list string)
  (secs : list section) :
  forall s e st, exists st' tail,
    kids_loop L ep secret true lines secs s e st = (st', inr (s, e))
    /\ st_log st' = (st_log st ++ tail)%list
    /\ forallb (fun ev => negb (is_post ev)) tail = true.
Proof.
  induction secs as [|sec rest IH]; intros s e st.
  - exists st, []. now rewrite app_nil_r.
  - cbn [kids_loop].
    destruct (negb (truthy (py_strip (clean_ocr_text (raw_text lines sec))))).
    + rewrite bind_print_step.
      destruct (IH s e {| st_log := (st_log st ++ [EvPrint (MSkipEmpty (sec_title sec))])%list;
                          st_stdin := st_stdin st |}) as (st' & t & E & H1 & Q).
      exists st', (EvPrint (MSkipEmpty (sec_title sec)) :: t).
      split; [exact E|]. split; [rewrite H1; cbn [st_log]; now rewrite <- app_assoc | exact Q].
    + rewrite !bind_print_step.
      match goal with |- exists _ _, kids_loop _ _ _ _ _ _ _ _ ?s1 = _ /\ _ =>
        destruct (IH s e s1) as (st' & t & E & H1 & Q) end.
      eexists st', (_ :: _ :: _ :: _ :: t). split; [exact E|].
      split; [rewrite H1; cbn [st_log]; now rewrite <- !app_assoc | exact Q].
Qed.

Lemma kids_loop_counts (L : Lib) (ep secret : string) (lines : list string)
  (secs : list section) :
  forall s e st, exists st' s' e',
    kids_loop L ep secret false lines secs s e st = (st', inr (s', e'))
    /\ s' + e' = s + e + List.length
         (filter (fun sec => truthy (py_strip (clean_ocr_text (raw_text lines sec)))) secs).
Proof.
  induction secs as [|sec rest IH]; intros s e st.
  - exists st, s, e. cbn. split; [reflexivity | lia].
  - cbn [kids_loop filter].
    destruct (truthy (py_strip (clean_ocr_text (raw_text lines sec)))); cbn [negb].
    + rewrite !bind_print_step.
      match goal with |- context [bind (try_except ?m is_Exception ?h) _ ?s1] =>
        destruct (try_except_caught m h s1) as (s2 & ok & Ht) end.
      { repeat (apply tame_bind; [|intros ?]); tame_tac. }
      { intros ex st1. eexists _, _. reflexivity. }
      rewrite (bind_ret_step _ _ _ _ _ Ht). destruct ok.
      * destruct (IH (S s) e s2) as (st' & s' & e' & E & Hc).
        exists st', s', e'. split; [exact E|]. cbn [List.length]. lia.
      * destruct (IH s (S e) s2) as (st' & s' & e' & E & Hc).
        exists st', s', e'. split; [exact E|]. cbn [List.length]. lia.
    + rewrite bind_print_step. apply IH.
Qed.

(** A dry run of ingest_kids.py needs no secret and never submits
    anything: it prints the sections and ends with "Done! 0 sections
    ingested, 0 errors." once the input file is read. *)
Theorem ingest_kids_main_dry_run (L : Lib) (ep secret input_path txt : string)
  (st : state) :
  read_text L input_path = Ok txt ->
  exists st' tail, ingest_kids_main L ep secret input_path true st = (st', inr tt)
    /\ st_log st' = (st_log st ++ tail ++ [EvPrint (MKidsDone 0 0)])%list
    /\ forallb (fun ev => negb (is_post ev)) tail = true.
Proof.
  intros Hr. unfold ingest_kids_main. cbn [negb andb].
  unfold bind at 1, lift. rewrite Hr. unfold ret at 1. unfold kids_main.
  rewrite bind_print_step.
  destruct (kids_loop_dry L ep secret (readlines txt) SECTIONS 0 0
              {| st_log := (st_log st ++ [EvPrint (MReadLines (List.length (readlines txt))
                                                                input_path)])%list;
                 st_stdin := st_stdin st |}) as (st1 & t & E & H1 & Q).
  unfold bind at 1. rewrite E.
  eexists _, (EvPrint (MReadLines (List.length (readlines txt)) input_path) :: t).
  split; [reflexivity|]. split; [|exact Q].
  cbn [st_log]. rewrite H1. cbn [st_log]. now rewrite <- !app_assoc.
Qed.

(** A run of ingest_kids.py with a secret, once the input file is read,
    ends with "Done! s sections ingested, e errors." where [s + e] is the
    number of sections whose cleaned text is not blank: each of them is
    submitted once and counted once, as a success or as an error. *)
Theorem ingest_kids_main_counts (L : Lib) (ep secret input_path txt : string)
  (st : state) :
  truthy secret = true -> read_text L input_path = Ok txt ->
  exists st' tail s e,
    ingest_kids_main L ep secret input_path false st = (st', inr tt)
    /\ st_log st' = (st_log st ++ tail ++ [EvPrint (MKidsDone s e)])%list
    /\ s + e = List.length
         (filter (fun sec => truthy (py_strip (clean_ocr_text (raw_text (readlines txt) sec))))
                 SECTIONS).
Proof.
  intros Hs Hr. unfold ingest_kids_main. rewrite Hs. cbn [negb andb].
  unfold bind at 1, lift. rewrite Hr. unfold ret at 1. unfold kids_main.
  rewrite bind_print_step.
  set (st1 := {| st_log := (st_log st ++ [EvPrint (MReadLines (List.length (readlines txt))
                                                               input_path)])%list;
                 st_stdin := st_stdin st |}).
  destruct (kids_loop_counts L ep secret (readlines txt) SECTIONS 0 0 st1)
    as (st2 & s & e & E & Hc).
  rewrite !Nat.add_0_l in Hc.
  destruct (keeps_kids_loop (post_ok ep secret) ltac:(eauto with keeps) L ep secret
              false (readlines txt) SECTIONS (post_ok_kids_payload ep secret) 0 0 _ _ _ E)
    as [t [H2 _]].
  unfold bind at 1. rewrite E.
  eexists _, (EvPrint (MReadLines (List.length (readlines txt)) input_path) :: t), s, e.
  split; [reflexivity|]. split; [|exact Hc].
  cbn [st_log]. rewrite H2. unfold st1. cbn [st_log]. now rewrite <- !app_assoc.
Qed.

(** ** Witnesses on the sample environment *)

Lemma raw_text_whole_file_witness :
  start_line (mk_section "All" 1 5 None None None) = 1%Z
  /\ (Z.of_nat (List.length (readlines ("a" ++ String nl "b")))
      <= end_line (mk_section "All" 1 5 None None None))%Z
  /\ raw_text (readlines ("a" ++ String nl "b")) (mk_section "All" 1 5 None None None)
     = "a" ++ String nl "b".
Proof.
  split; [reflexivity|]. split; [cbn; lia|].
  apply raw_text_whole_file; [reflexivity | cbn; lia].
Defined.

Lemma raw_slice_nth_witness :
  (1 <= start_line (mk_section "S" 2 3 None None None))%Z
  /\ (0 <= end_line (mk_section "S" 2 3 None None None))%Z
  /\ nth_error (raw_slice ["l1"; "l2"; "l3"; "l4"] (mk_section "S" 2 3 None None None)) 1
     = if (Z.of_nat 1 + start_line (mk_section "S" 2 3 None None None)
           <=? end_line (mk_section "S" 2 3 None None None))%Z
       then nth_error ["l1"; "l2"; "l3"; "l4"]
              (Z.to_nat (start_line (mk_section "S" 2 3 None None None) - 1) + 1)
       else None.
Proof.
  split; [cbn; lia|]. split; [cbn; lia|].
  apply raw_slice_nth; cbn; lia.
Defined.

Lemma extract_web_text_stripped_witness :
  exists st' t x, extract_web_text (sample_lib true "") spa_url st0 = (st', inr (t, x))
    /\ py_strip t = t /\ py_strip x = x.
Proof.
  eexists _, _, _.
  match goal with |- ?a = ?b /\ _ => assert (E : a = b) by (cbv; reflexivity) end.
  split; [exact E | exact (extract_web_text_stripped _ _ _ _ _ _ E)].
Defined.

Lemma extract_pdf_text_blank_witness :
  exists st' c, extract_pdf_text (sample_lib true "") "guide.pdf" st0 = (st', inr c)
    /\ exists pages, pdf_pages_of_path (sample_lib true "") "guide.pdf" = Ok pages
       /\ (truthy (py_strip c) = false
           <-> Forall (fun p => truthy (py_strip p) = false) pages).
Proof.
  eexists _, _.
  match goal with |- ?a = ?b /\ _ => assert (E : a = b) by (cbv; reflexivity) end.
  split; [exact E | exact (extract_pdf_text_blank _ _ _ _ _ E)].
Defined.

Lemma process_one_interactive_stdin_witness :
  exists st' r,
    process_one (sample_lib true "") page_url
      {| a_title := None; a_author := None; a_category := None;
         a_source := None; a_source_url := None; a_batch := false |} "e" "s"
      {| st_log := []; st_stdin := [""; "Coach"; ""; ""; ""; "next"] |} = (st', r)
    /\ exists tail, st_log st' = ([] ++ tail)%list
    /\ (st_stdin st' = [""; "Coach"; ""; ""; ""; "next"]
        \/ st_stdin st' = skipn 5 [""; "Coach"; ""; ""; ""; "next"])
    /\ (existsb is_post tail = true ->
          5 <= List.length [""; "Coach"; ""; ""; ""; "next"]
          /\ st_stdin st' = skipn 5 [""; "Coach"; ""; ""; ""; "next"]).
Proof.
  eexists _, _.
  match goal with |- ?a = ?b /\ _ => assert (E : a = b) by (cbv; reflexivity) end.
  split; [exact E|].
  refine (process_one_interactive_stdin _ _ _ _ _ _ _ _ _ _ E); reflexivity.
Defined.

Lemma assemble_metadata_source_url_witness :
  opt_truthy (Some page_url) = true
  /\ exists st' m,
       assemble_metadata
         {| a_title := None; a_author := None; a_category := None; a_source := None;
            a_source_url := None; a_batch := false |} "Auto" (Some page_url)
         {| st_log := []; st_stdin := [""; ""; ""; ""; ""] |} = (st', inr m)
       /\ opt_truthy (m_source_url m) = true.
Proof.
  split; [reflexivity|]. eexists _, _.
  match goal with |- ?a = ?b /\ _ => assert (E : a = b) by (cbv; reflexivity) end.
  split; [exact E | exact (assemble_metadata_source_url _ _ (Some page_url) _ _ _ eq_refl E)].
Defined.

Lemma process_one_noninteractive_witness :
  (a_batch {| a_title := None; a_author := None; a_category := None; a_source := None;
              a_source_url := None; a_batch := true |} = true
   \/ opt_truthy (a_title {| a_title := None; a_author := None; a_category := None;
                             a_source := None; a_source_url := None; a_batch := true |})
      = true)
  /\ stdin_kept (process_one (sample_lib true "") page_url
                   {| a_title := None; a_author := None; a_category := None;
                      a_source := None; a_source_url := None; a_batch := true |} "e" "s")
  /\ keeps (fun ev => negb (is_prompt ev))
       (process_one (sample_lib true "") page_url
          {| a_title := None; a_author := None; a_category := None;
             a_source := None; a_source_url := None; a_batch := true |} "e" "s").
Proof.
  split; [left; reflexivity|]. apply process_one_noninteractive. left. reflexivity.
Defined.

Lemma process_one_local_offline_witness :
  String.prefix "http://" "notes/wod.txt" = false
  /\ String.prefix "https://" "notes/wod.txt" = false
  /\ keeps (fun ev => negb (is_fetch ev))
       (process_one (sample_lib true "") "notes/wod.txt"
          {| a_title := None; a_author := None; a_category := None;
             a_source := None; a_source_url := None; a_batch := false |} "e" "s").
Proof.
  split; [reflexivity|]. split; [reflexivity|].
  apply process_one_local_offline; reflexivity.
Defined.

Lemma ingest_main_loop_completes_witness :
  playwright_installed (sample_lib true "") = true
  /\ exists st' tail,
       ingest_main_loop (sample_lib true "")
         {| a_title := None; a_author := None; a_category := None;
            a_source := None; a_source_url := None; a_batch := false |} "e" "s"
         [page_url; "notes/wod.txt"] st0 = (st', inr tt)
       /\ st_log st' = (st_log st0 ++ tail ++ [EvPrint MAllDone])%list.
Proof.
  split; [reflexivity|]. apply ingest_main_loop_completes. reflexivity.
Defined.

Lemma batch_run_tally_witness :
  exists st', batch_run (sample_lib true "Alpha") "e" "s"
                [mk_article page_url "Alpha" "journal" "J";
                 mk_article page_url "Gamma" "journal" "J"] st0 = (st', inr tt)
    /\ exists tail s, st_log st' = (st_log st0 ++ tail)%list
         /\ summaries tail = [(s, 2)]
         /\ s + List.length (failure_titles tail) = 2.
Proof.
  eexists.
  match goal with |- ?a = ?b /\ _ => assert (E : a = b) by (cbv; reflexivity) end.
  split; [exact E | exact (batch_run_tally _ _ _ _ _ _ E)].
Defined.

Lemma ingest_kids_main_dry_run_witness :
  read_text (sample_lib true "") "TG_Online_Kids.txt" = Ok "hello"
  /\ exists st' tail,
       ingest_kids_main (sample_lib true "") "e" "" "TG_Online_Kids.txt" true st0
       = (st', inr tt)
       /\ st_log st' = (st_log st0 ++ tail ++ [EvPrint (MKidsDone 0 0)])%list
       /\ forallb (fun ev => negb (is_post ev)) tail = true.
Proof.
  split; [reflexivity|]. apply (ingest_kids_main_dry_run _ _ _ _ "hello"). reflexivity.
Defined.

Lemma ingest_kids_main_counts_witness :
  truthy "s" = true
  /\ read_text (sample_lib true "") "TG_Online_Kids.txt" = Ok "hello"
  /\ exists st' tail s e,
       ingest_kids_main (sample_lib true "") "e" "s" "TG_Online_Kids.txt" false st0
       = (st', inr tt)
       /\ st_log st' = (st_log st0 ++ tail ++ [EvPrint (MKidsDone s e)])%list
       /\ s + e = List.length
            (filter (fun sec => truthy (py_strip (clean_ocr_text
                                                    (raw_text (readlines "hello") sec))))
                    SECTIONS).
Proof.
  split; [reflexivity|]. split; [reflexivity|].
  apply (ingest_kids_main_counts _ _ _ _ "hello"); reflexivity.
Defined.
